(** * dwv session core: DataController and ToolboxController

    A shallow embedding of the two controllers of the viewer:

    - [DataController] (src/src/index.js, second document): the indexed
      store of {image, meta} entries;
    - [ToolboxController] (src/unnamed/part_000): tool selection, layer
      binding and the memoised mouse/touch dispatchers.

    JavaScript objects used as dictionaries are finite maps over the
    properties that were stored in them. A key that names a property
    such an object has without anyone storing it ([toString] on every
    object, [length] on an Array, ...) is outside these maps: the names
    are listed ([inheritedByObject], [inheritedByArray]) and the
    statements about a lookup under an arbitrary key take as hypothesis
    that the key is none of them. Object identity (closures, images,
    tools, layers) is an allocation number, and every method is a
    computation in a state-and-exception monad, so that a [throw] in the
    middle of a method keeps the mutations made before it. Collaborators
    whose code is not in the sources are parameters or are modelled from
    their contract, and say so. *)

From stdpp Require Import gmap strings list fin_maps.

(** ** JavaScript completions *)

Module Js.

(** The exceptions the controllers can raise: the engine's [TypeError]
    (a property read on [undefined] or [null]) and [new Error(message)].
    [JsErrorAt message number] is [new Error(message + number)]: the text
    of the number is the language's conversion of it (the decimal digits
    of a small integer, exponent notation such as 1e+21 from 10^21 on),
    which is left to the language and not computed here. *)
Inductive Error : Type :=
| TypeError
| JsError (message : string)
| JsErrorAt (message : string) (number : N).

Inductive Completion (A : Type) : Type :=
| Normal (a : A)
| Throw (e : Error).

Arguments Normal {A} a.
Arguments Throw {A} e.

(** A method body: it reads and writes the state [S] and either returns
    or throws; the state at the throw is kept. *)
Definition M (S A : Type) : Type := S -> Completion A * S.

Definition ret {S A : Type} (a : A) : M S A := fun s => (Normal a, s).

Definition bind {S A B : Type} (m : M S A) (k : A -> M S B) : M S B :=
  fun s =>
    match m s with
    | (Normal a, s') => k a s'
    | (Throw e, s') => (Throw e, s')
    end.

Definition throw {S A : Type} (e : Error) : M S A := fun s => (Throw e, s).

Definition getState {S : Type} : M S S := fun s => (Normal s, s).

Definition modify {S : Type} (f : S -> S) : M S unit := fun s => (Normal tt, f s).

(** [for (...) body]: the body runs on each element in order, a throw
    leaves the loop. *)
Fixpoint forEach {S A : Type} (l : list A) (body : A -> M S unit) : M S unit :=
  match l with
  | [] => ret tt
  | x :: l' => bind (body x) (fun _ => forEach l' body)
  end.

Definition completion {S A : Type} (m : M S A) (s : S) : Completion A := fst (m s).
Definition stateAfter {S A : Type} (m : M S A) (s : S) : S := snd (m s).

Declare Scope js_scope.
Delimit Scope js_scope with js.
Notation "'let*' x ':=' m 'in' k" := (bind m (fun x => k))
  (at level 10, x name, m at level 100, k at level 200) : js_scope.
Notation "m ';;' k" := (bind m (fun _ => k))
  (at level 100, k at level 200, right associativity) : js_scope.

(** Unfold the monad down to pairs of a completion and a state. *)
Ltac js_unfold :=
  unfold completion, stateAfter, bind, ret, throw, getState, modify in *; simpl in *.

End Js.

Import Js.
Local Open Scope js_scope.

(** ** DataController (src/src/index.js) *)

Module DataController.

(** An image is an object of the caller: the store keeps a reference. *)
Definition ImageRef : Type := nat.

(** Listeners registered on an image: callbacks of other components, or
    the closure [#getFireEvent(index)] returns, a fresh one per call. *)
Inductive ImageListener : Type :=
| OtherListener (id : nat)
| FireEvent (id : nat) (index : N).

#[global] Instance ImageListener_eq_dec : EqDecision ImageListener.
Proof. solve_decision. Defined.

(** The events the store fires: [{type, value, dataid}]. *)
Record Event : Type := mkEvent {
  type : string;
  value : list ImageRef;
  dataid : option N
}.

Section WithCollaborators.

(** Pixel content of an image and the values of a meta data object are
    the collaborators' business. *)
Context {ImageData MetaValue : Type}.

(** [Image.appendSlice]: the receiver's content after the argument's was
    appended. *)
Variable appendSlice : ImageData -> ImageData -> ImageData.
(** [new DicomElementsWrapper(meta).dumpToObject()]. *)
Variable dumpToObject : gmap string MetaValue -> gmap string MetaValue.
(** [mergeObjects(obj1, obj2, idKey, valueKey)] of utils/operator. *)
Variable mergeObjects :
  gmap string MetaValue -> gmap string MetaValue -> string -> string -> gmap string MetaValue.

Record ImageObject : Type := mkImage {
  content : ImageData;
  imageListeners : list (string * ImageListener)
}.

(** One entry of [#data]: [{image, meta}]. *)
Record DataEntry : Type := mkEntry {
  image : ImageRef;
  meta : gmap string MetaValue
}.

Record State : Type := mkState {
  (** [#data], keyed by index *)
  data : gmap N DataEntry;
  (** [#listenerHandler]: (type, callback) pairs in registration order *)
  listenerHandler : list (string * nat);
  (** the image objects the caller created *)
  images : gmap ImageRef ImageObject;
  (** allocation counter for closures *)
  nextClosure : nat;
  (** the listener calls made so far, oldest first *)
  called : list (nat * Event)
}.

Definition set_data (f : gmap N DataEntry -> gmap N DataEntry) (st : State) : State :=
  mkState (f (data st)) (listenerHandler st) (images st) (nextClosure st) (called st).

Definition set_listenerHandler (f : list (string * nat) -> list (string * nat)) (st : State) : State :=
  mkState (data st) (f (listenerHandler st)) (images st) (nextClosure st) (called st).

Definition set_images (f : gmap ImageRef ImageObject -> gmap ImageRef ImageObject) (st : State) : State :=
  mkState (data st) (listenerHandler st) (f (images st)) (nextClosure st) (called st).

Definition set_nextClosure (f : nat -> nat) (st : State) : State :=
  mkState (data st) (listenerHandler st) (images st) (f (nextClosure st)) (called st).

Definition set_called (f : list (nat * Event) -> list (nat * Event)) (st : State) : State :=
  mkState (data st) (listenerHandler st) (images st) (nextClosure st) (f (called st)).

(** A controller as constructed: [#data = {}], no listener. *)
Definition newController (imgs : gmap ImageRef ImageObject) : State :=
  mkState ∅ [] imgs 0 [].

(** Modelled from the spec: the Notification Hub (utils/listen,
    [ListenerHandler]) is not in the sources. "Type-keyed listener
    registration, synchronous fan-out on fire", "firing an event invokes
    every listener registered for its type, synchronously, in
    registration order". *)
Definition ListenerHandler_add (type0 : string) (callback : nat)
    (l : list (string * nat)) : list (string * nat) :=
  l ++ [(type0, callback)].

Definition ListenerHandler_remove (type0 : string) (callback : nat)
    (l : list (string * nat)) : list (string * nat) :=
  filter (fun p => p ≠ (type0, callback)) l.

Definition ListenerHandler_fireEvent (event : Event)
    (l : list (string * nat)) : list (nat * Event) :=
  (fun p => (p.2, event)) <$> filter (fun p => p.1 = type event) l.

(** [#fireEvent]: hand the event to the listener handler. *)
Definition fireEvent (event : Event) : M State unit :=
  modify (fun st =>
    set_called (fun c => c ++ ListenerHandler_fireEvent event (listenerHandler st)) st).

(** [#getFireEvent(index)]: a new closure at each call. *)
Definition getFireEvent (index : N) : M State ImageListener :=
  let* st := getState in
  modify (set_nextClosure S) ;;
  ret (FireEvent (nextClosure st) index).

(** What a listener of an image does when the image calls it: the closure
    of [#getFireEvent] sets [event.dataid] and fires the event on the
    store; other listeners are no concern of the store. *)
Definition callImageListener (l : ImageListener) (event : Event) : M State unit :=
  match l with
  | FireEvent _ index => fireEvent (mkEvent (type event) (value event) (Some index))
  | OtherListener _ => ret tt
  end.

(** Modelled from the spec: the image class is not in the sources.
    [image.addEventListener(type, callback)] registers the callback on the
    image; an [image] that is no object ([undefined]) makes the property
    read raise. *)
Definition Image_addEventListener (img : ImageRef) (type0 : string)
    (callback : ImageListener) : M State unit :=
  let* st := getState in
  match images st !! img with
  | None => throw TypeError
  | Some o =>
      modify (set_images
        <[img := mkImage (content o) (imageListeners o ++ [(type0, callback)])]>)
  end.

(** Modelled from the spec: an image notifies the listeners registered
    for the type of the event, in registration order. *)
Definition Image_fireEvent (img : ImageRef) (event : Event) : M State unit :=
  let* st := getState in
  match images st !! img with
  | None => throw TypeError
  | Some o =>
      forEach (filter (fun p => p.1 = type event) (imageListeners o))
        (fun p => callImageListener p.2 event)
  end.

(** Modelled from the spec: "[appendSlice(image)] grows a multi-frame
    dataset; emits an [imagechange] notification". *)
Definition Image_appendSlice (receiver img : ImageRef) : M State unit :=
  let* st := getState in
  match images st !! receiver, images st !! img with
  | Some o, Some a =>
      modify (set_images
        <[receiver := mkImage (appendSlice (content o) (content a)) (imageListeners o)]>) ;;
      Image_fireEvent receiver (mkEvent "imagechange" [] None)
  | _, _ => throw TypeError
  end.

(** [#getMetaObject(meta)]: wrap meta if dicom (x00020010: transfer
    syntax). *)
Definition getMetaObject (meta0 : gmap string MetaValue) : gmap string MetaValue :=
  match meta0 !! "x00020010" with
  | Some _ => dumpToObject meta0
  | None => meta0
  end.

(** [length()]: [Object.keys(this.#data).length]. *)
Definition length (st : State) : nat := size (data st).

(** [reset()]: [this.#data = []]. *)
Definition reset : M State unit := modify (set_data (fun _ => ∅)).

(** [get(index)]: [None] is [undefined]. *)
Definition get (index : N) (st : State) : option DataEntry := data st !! index.

(** [setImage(index, image)]. *)
Definition setImage (index : N) (img : ImageRef) : M State unit :=
  let* st := getState in
  match data st !! index with
  | None => throw TypeError
  | Some e =>
      modify (set_data <[index := mkEntry img (meta e)]>) ;;
      fireEvent (mkEvent "imageset" [img] (Some index)) ;;
      let* st1 := getState in
      match images st1 !! img with
      | None => throw TypeError
      | Some _ =>
          let* callback := getFireEvent index in
          Image_addEventListener img "imagechange" callback
      end
  end.

(** [addNew(index, image, meta)]. *)
Definition addNew (index : N) (img : ImageRef) (meta0 : gmap string MetaValue) : M State unit :=
  let* st := getState in
  match data st !! index with
  | Some _ => throw (JsErrorAt "Index already used in storage: " index)
  | None =>
      modify (set_data <[index := mkEntry img (getMetaObject meta0)]>) ;;
      match images st !! img with
      | None => throw TypeError
      | Some _ =>
          let* callback := getFireEvent index in
          Image_addEventListener img "imagechange" callback
      end
  end.

(** The identity key [update] merges with. *)
Definition idKeyOf (meta0 : gmap string MetaValue) : string :=
  match meta0 !! "x00020010" with
  | Some _ => "InstanceNumber"
  | None => "imageUid"
  end.

(** [update(index, image, meta)]. *)
Definition update (index : N) (img : ImageRef) (meta0 : gmap string MetaValue) : M State unit :=
  let* st := getState in
  match data st !! index with
  | None => throw TypeError
  | Some dataToUpdate =>
      Image_appendSlice (image dataToUpdate) img ;;
      let idKey := idKeyOf meta0 in
      modify (set_data
        <[index := mkEntry (image dataToUpdate)
                     (mergeObjects (meta dataToUpdate) (getMetaObject meta0) idKey "value")]>)
  end.

(** [addEventListener(type, callback)] and [removeEventListener]. *)
Definition addEventListener (type0 : string) (callback : nat) : M State unit :=
  modify (set_listenerHandler (ListenerHandler_add type0 callback)).

Definition removeEventListener (type0 : string) (callback : nat) : M State unit :=
  modify (set_listenerHandler (ListenerHandler_remove type0 callback)).

End WithCollaborators.

End DataController.

(** ** ToolboxController (src/unnamed/part_000) *)

Module ToolboxController.

(** A tool object: its identity and the functions it carries under the
    names of the event types ([tool[eventType]]), each known by its
    identity. *)
Record Tool : Type := mkTool {
  toolRef : nat;
  handlers : gmap string nat
}.

#[global] Instance Tool_eq_dec : EqDecision Tool.
Proof. solve_decision. Defined.

(** A layer object: its identity and what [getId()] returns. *)
Record Layer : Type := mkLayer {
  layerRef : nat;
  getId : string
}.

(** The closures the controller creates: the callback of [#getOnMouch]
    for an event type, and the arrow function given to the [contextmenu]
    listener. [id] is the allocation number: two closures are the same
    object exactly when they were created by the same evaluation. *)
Inductive Closure : Type :=
| OnMouch (id : nat) (eventType : string)
| PreventDefault (id : nat).

#[global] Instance Closure_eq_dec : EqDecision Closure.
Proof. solve_decision. Defined.

(** A DOM event as the callbacks read and augment it. *)
Record Event : Type := mkEvent {
  type : string;
  button : option Z;
  buttons : option Z;
  _x : option Z;
  _y : option Z;
  _x1 : option Z;
  _y1 : option Z
}.

(** Calls the controller makes on its collaborators, in order. *)
Inductive Call : Type :=
| ToolInit (tool : nat)
| ToolActivate (tool : nat) (flag : bool)
| ToolSetFeatures (tool : nat) (features : nat)
| ToolHandler (func : nat) (event : Event)
| LayerBindInteraction (layer : nat)
| LayerUnbindInteraction (layer : nat)
| EventPreventDefault (event : Event).

Record State : Type := mkState {
  (** [#toolList] *)
  toolList : gmap string Tool;
  (** [#selectedTool], [None] for [null] *)
  selectedTool : option Tool;
  (** [#callbackStore], by layer id then by event type *)
  callbackStore : gmap string (gmap string Closure);
  (** [#boundLayers], by layer group div id *)
  boundLayers : gmap string Layer;
  (** allocation counter for closures *)
  nextClosure : nat;
  (** tools whose activation flag is set *)
  activeTools : gset nat;
  (** listeners registered on each layer, in registration order *)
  layerListeners : gmap nat (list (string * Closure));
  (** layers with interaction enabled *)
  interactive : gset nat;
  (** [document]: the elements by id, each with its listeners *)
  document : gmap string (list (string * Closure));
  (** [window]'s listeners *)
  windowListeners : list (string * Closure);
  (** the collaborator calls made so far, oldest first *)
  calls : list Call
}.

Definition set_selectedTool (v : option Tool) (st : State) : State :=
  mkState (toolList st) v (callbackStore st) (boundLayers st) (nextClosure st)
    (activeTools st) (layerListeners st) (interactive st) (document st)
    (windowListeners st) (calls st).

Definition set_callbackStore (v : gmap string (gmap string Closure)) (st : State) : State :=
  mkState (toolList st) (selectedTool st) v (boundLayers st) (nextClosure st)
    (activeTools st) (layerListeners st) (interactive st) (document st)
    (windowListeners st) (calls st).

Definition set_boundLayers (v : gmap string Layer) (st : State) : State :=
  mkState (toolList st) (selectedTool st) (callbackStore st) v (nextClosure st)
    (activeTools st) (layerListeners st) (interactive st) (document st)
    (windowListeners st) (calls st).

Definition set_nextClosure (v : nat) (st : State) : State :=
  mkState (toolList st) (selectedTool st) (callbackStore st) (boundLayers st) v
    (activeTools st) (layerListeners st) (interactive st) (document st)
    (windowListeners st) (calls st).

Definition set_activeTools (v : gset nat) (st : State) : State :=
  mkState (toolList st) (selectedTool st) (callbackStore st) (boundLayers st)
    (nextClosure st) v (layerListeners st) (interactive st) (document st)
    (windowListeners st) (calls st).

Definition set_layerListeners (v : gmap nat (list (string * Closure))) (st : State) : State :=
  mkState (toolList st) (selectedTool st) (callbackStore st) (boundLayers st)
    (nextClosure st) (activeTools st) v (interactive st) (document st)
    (windowListeners st) (calls st).

Definition set_interactive (v : gset nat) (st : State) : State :=
  mkState (toolList st) (selectedTool st) (callbackStore st) (boundLayers st)
    (nextClosure st) (activeTools st) (layerListeners st) v (document st)
    (windowListeners st) (calls st).

Definition set_document (v : gmap string (list (string * Closure))) (st : State) : State :=
  mkState (toolList st) (selectedTool st) (callbackStore st) (boundLayers st)
    (nextClosure st) (activeTools st) (layerListeners st) (interactive st) v
    (windowListeners st) (calls st).

Definition set_windowListeners (v : list (string * Closure)) (st : State) : State :=
  mkState (toolList st) (selectedTool st) (callbackStore st) (boundLayers st)
    (nextClosure st) (activeTools st) (layerListeners st) (interactive st)
    (document st) v (calls st).

Definition set_calls (v : list Call) (st : State) : State :=
  mkState (toolList st) (selectedTool st) (callbackStore st) (boundLayers st)
    (nextClosure st) (activeTools st) (layerListeners st) (interactive st)
    (document st) (windowListeners st) v.

(** [new ToolboxController(toolList)] in a page whose elements are [doc]:
    no tool selected, nothing cached, nothing bound. *)
Definition newController (tools : gmap string Tool)
    (doc : gmap string (list (string * Closure))) : State :=
  mkState tools None ∅ ∅ 0 ∅ ∅ ∅ doc [] [].

Definition call (c : Call) : M State unit :=
  modify (fun st => set_calls (calls st ++ [c]) st).

(** The listeners of a layer; a layer nobody registered on has none. *)
Definition listenersOf (layer : Layer) (st : State) : list (string * Closure) :=
  default [] (layerListeners st !! layerRef layer).

(** Modelled from the spec: the tool classes are not in the sources.
    A tool is a "capability object with an activation flag, exposing
    [init], [activate(bool)], [setFeatures(config)]". *)
Definition Tool_init (tool : Tool) : M State unit := call (ToolInit (toolRef tool)).

Definition Tool_activate (tool : Tool) (flag : bool) : M State unit :=
  call (ToolActivate (toolRef tool) flag) ;;
  modify (fun st =>
    set_activeTools
      (if flag then activeTools st ∪ {[toolRef tool]} else activeTools st ∖ {[toolRef tool]}) st).

Definition Tool_setFeatures (tool : Tool) (features : nat) : M State unit :=
  call (ToolSetFeatures (toolRef tool) features).

(** Modelled from the spec: the layer classes are not in the sources.
    A RenderSurface has "[bindInteraction()] / [unbindInteraction()];
    [addEventListener(kind, handler)] / [removeEventListener(kind,
    handler)]": registration appends, removal takes out the registrations
    of that very handler for that kind. *)
Definition Layer_bindInteraction (layer : Layer) : M State unit :=
  call (LayerBindInteraction (layerRef layer)) ;;
  modify (fun st => set_interactive (interactive st ∪ {[layerRef layer]}) st).

Definition Layer_unbindInteraction (layer : Layer) : M State unit :=
  call (LayerUnbindInteraction (layerRef layer)) ;;
  modify (fun st => set_interactive (interactive st ∖ {[layerRef layer]}) st).

Definition Layer_addEventListener (layer : Layer) (type0 : string)
    (callback : Closure) : M State unit :=
  modify (fun st =>
    set_layerListeners
      (<[layerRef layer := listenersOf layer st ++ [(type0, callback)]]> (layerListeners st)) st).

Definition Layer_removeEventListener (layer : Layer) (type0 : string)
    (callback : Closure) : M State unit :=
  modify (fun st =>
    set_layerListeners
      (<[layerRef layer := filter (fun p => p ≠ (type0, callback)) (listenersOf layer st)]>
         (layerListeners st)) st).

(** The browser's [EventTarget]: a listener already registered for the
    type is not registered again, and removal takes out the listener
    that is the same object. *)
Definition EventTarget_add (type0 : string) (callback : Closure)
    (l : list (string * Closure)) : list (string * Closure) :=
  if decide ((type0, callback) ∈ l) then l else l ++ [(type0, callback)].

Definition EventTarget_remove (type0 : string) (callback : Closure)
    (l : list (string * Closure)) : list (string * Closure) :=
  filter (fun p => p ≠ (type0, callback)) l.

(** [(event) => {event.preventDefault()}]: evaluating the arrow function
    creates a new closure. *)
Definition newPreventDefault : M State Closure :=
  let* st := getState in
  modify (set_nextClosure (S (nextClosure st))) ;;
  ret (PreventDefault (nextClosure st)).

(** ** Names an object has without anyone storing them

    The controller keeps its tools and its bound layers in plain objects
    and its callbacks in an Array whose rows are Arrays, and it tests a
    key by [typeof object[key] !== 'undefined']. The maps of [State] hold
    the properties that were stored under a key. A key that names a
    property the object has by inheritance is found by that test without
    having been stored: [toolList['toString']] is a function, the
    [length] of an Array is a number, its [__proto__] is
    [Array.prototype]. [bindLayer] models the case of a group id, where
    the inherited value makes the call raise at once. What the code does
    with such a value elsewhere (it takes the function for a tool, it
    stores a callback on the number or on the prototype) is not modelled:
    the statements exclude these tool names and layer ids by hypothesis.
    These are the names concerned, those of ECMAScript with its
    Annex B. *)
Definition Object_prototype : list string :=
  [ "constructor"; "hasOwnProperty"; "isPrototypeOf"; "propertyIsEnumerable";
    "toLocaleString"; "toString"; "valueOf"; "__proto__";
    "__defineGetter__"; "__defineSetter__"; "__lookupGetter__"; "__lookupSetter__" ].

Definition Array_prototype : list string :=
  [ "at"; "concat"; "constructor"; "copyWithin"; "entries"; "every"; "fill"; "filter";
    "find"; "findIndex"; "findLast"; "findLastIndex"; "flat"; "flatMap"; "forEach";
    "includes"; "indexOf"; "join"; "keys"; "lastIndexOf"; "map"; "pop"; "push";
    "reduce"; "reduceRight"; "reverse"; "shift"; "slice"; "some"; "sort"; "splice";
    "toLocaleString"; "toReversed"; "toSorted"; "toSpliced"; "toString"; "unshift";
    "values"; "with" ].

(** [typeof ({})[key] !== 'undefined'] for a key nobody stored. *)
Definition inheritedByObject (key : string) : bool :=
  bool_decide (key ∈ Object_prototype).

(** [typeof ([])[key] !== 'undefined'] for a key nobody stored. *)
Definition inheritedByArray (key : string) : bool :=
  bool_decide (key = "length" \/ key ∈ Array_prototype \/ key ∈ Object_prototype).

Section WithGui.

(** [InteractionEventNames] and [getEventOffset] of gui/generic. *)
Variable InteractionEventNames : list string.
Variable getEventOffset : Event -> list (Z * Z).

(** [getToolList()], [hasTool(name)], [getSelectedTool()]. [hasTool] is
    the test of the tools stored in the list: for a name the list
    inherits ([inheritedByObject]) the code's test is true as well. *)
Definition getToolList (st : State) : gmap string Tool := toolList st.

Definition hasTool (name : string) (st : State) : bool :=
  bool_decide (is_Some (getToolList st !! name)).

Definition getSelectedTool (st : State) : option Tool := selectedTool st.

(** [getSelectedToolEventHandler(eventType)]:
    [this.getSelectedTool()[eventType]]; reading a property of [null]
    raises. *)
Definition getSelectedToolEventHandler (eventType : string) : M State (option nat) :=
  let* st := getState in
  match getSelectedTool st with
  | None => throw TypeError
  | Some tool => ret (handlers tool !! eventType)
  end.

(** [setSelectedTool(name)]. *)
Definition setSelectedTool (name : string) : M State unit :=
  let* st := getState in
  if negb (hasTool name st)
  then throw (JsError ("Unknown tool: '" +:+ name +:+ "'"))
  else
    match selectedTool st with
    | Some previous => Tool_activate previous false
    | None => ret tt
    end ;;
    modify (set_selectedTool (toolList st !! name)) ;;
    match toolList st !! name with
    | Some tool => Tool_activate tool true
    | None => throw TypeError
    end.

(** [setToolFeatures(list)]. *)
Definition setToolFeatures (features : nat) : M State unit :=
  let* st := getState in
  match getSelectedTool st with
  | Some tool => Tool_setFeatures tool features
  | None => ret tt
  end.

(** [augmentEventOffsets(event)]: the event with its offsets; with no
    offset at all, [offsets[0].x] raises. *)
Definition augmentEventOffsets (event : Event) : M State Event :=
  match getEventOffset event with
  | [] => throw TypeError
  | o0 :: rest =>
      let e1 := mkEvent (type event) (button event) (buttons event)
                  (Some o0.1) (Some o0.2) (_x1 event) (_y1 event) in
      match rest with
      | [o1] => ret (mkEvent (type e1) (button e1) (buttons e1) (_x e1) (_y e1)
                       (Some o1.1) (Some o1.2))
      | _ => ret e1
      end
  end.

(** [applySelectedTool(event, selectedTool = undefined)]; the second
    argument is [None] when left out. *)
Definition applySelectedTool (event : Event) (selectedTool' : option string) : M State unit :=
  let* st := getState in
  match selectedTool st with
  | None => ret tt
  | Some current =>
      let* func :=
        match selectedTool' with
        | None => ret (handlers current !! type event)
        | Some name =>
            match toolList st !! name with
            | Some tool => ret (handlers tool !! type event)
            | None => throw TypeError
            end
        end in
      match func with
      | Some f => call (ToolHandler f event)
      | None => ret tt
      end
  end.

(** Whether the callback sends the event to 'WindowLevel'. *)
Definition isRightClick (event : Event) : bool :=
  (bool_decide (type event = "mousedown") && bool_decide (button event = Some 2%Z))
  || (bool_decide (type event = "mousemove") && bool_decide (buttons event = Some 2%Z)).

(** The body of the callback [#getOnMouch] built for [eventType]. *)
Definition onMouch (eventType : string) (event : Event) : M State unit :=
  if decide (eventType = "keydown") then applySelectedTool event None
  else if decide (eventType = "touchend") then applySelectedTool event None
  else
    let* event' := augmentEventOffsets event in
    if isRightClick event'
    then applySelectedTool event' (Some "WindowLevel")
    else applySelectedTool event' None.

(** Calling a closure of the controller with an event. *)
Definition callClosure (c : Closure) (event : Event) : M State unit :=
  match c with
  | OnMouch _ eventType => onMouch eventType event
  | PreventDefault _ => call (EventPreventDefault event)
  end.

(** The cached callback for a layer id and an event type, if any. *)
Definition cached (layerId eventType : string) (st : State) : option Closure :=
  callbackStore st !! layerId ≫= (.!! eventType).

(** [#getOnMouch(layerId, eventType)], for a layer id and an event type
    that an Array does not inherit ([inheritedByArray]): the rows and the
    callbacks found are the stored ones. *)
Definition getOnMouch (layerId eventType : string) : M State Closure :=
  let* st := getState in
  match callbackStore st !! layerId with
  | None => modify (set_callbackStore (<[layerId := ∅]> (callbackStore st)))
  | Some _ => ret tt
  end ;;
  let* st1 := getState in
  match cached layerId eventType st1 with
  | None =>
      let callback := OnMouch (nextClosure st1) eventType in
      modify (set_nextClosure (S (nextClosure st1))) ;;
      modify (set_callbackStore
        (<[layerId := <[eventType := callback]> (default ∅ (callbackStore st1 !! layerId))]>
           (callbackStore st1))) ;;
      ret callback
  | Some callback => ret callback
  end.

(** [init()]. The loop visits the tools in the order of the map;
    [for...in] visits them in the order the list was filled, which the map
    does not record. *)
Definition init : M State unit :=
  let* st := getState in
  forEach (map_to_list (toolList st)) (fun kv => Tool_init kv.2) ;;
  let* callback := getOnMouch "window" "keydown" in
  modify (fun st1 =>
    set_windowListeners (EventTarget_add "keydown" callback (windowListeners st1)) st1).

(** [document.getElementById(id)]: no element of that id gives [null],
    and the property read that follows raises. *)
Definition getElementById (id : string) : M State unit :=
  let* st := getState in
  match document st !! id with
  | None => throw TypeError
  | Some _ => ret tt
  end.

Definition Element_addEventListener (id type0 : string) (callback : Closure) : M State unit :=
  modify (fun st =>
    set_document (alter (EventTarget_add type0 callback) id (document st)) st).

Definition Element_removeEventListener (id type0 : string) (callback : Closure) : M State unit :=
  modify (fun st =>
    set_document (alter (EventTarget_remove type0 callback) id (document st)) st).

(** [#unbindLayer(layer)]. *)
Definition unbindLayer (layer : Layer) : M State unit :=
  Layer_unbindInteraction layer ;;
  forEach InteractionEventNames (fun name =>
    let* callback := getOnMouch (getId layer) name in
    Layer_removeEventListener layer name callback) ;;
  getElementById (getId layer) ;;
  let* preventDefault := newPreventDefault in
  Element_removeEventListener (getId layer) "contextmenu" preventDefault.

(** [bindLayer(layer, layerGroupDivId)]. [#boundLayers] is a plain
    object: under a group id it inherits ([inheritedByObject]) the test
    [typeof this.#boundLayers[id] !== 'undefined'] finds the inherited
    value, and [#unbindLayer] raises on its first line, the value having
    no [unbindInteraction]. *)
Definition bindLayer (layer : Layer) (layerGroupDivId : string) : M State unit :=
  let* st := getState in
  match boundLayers st !! layerGroupDivId with
  | Some bound => unbindLayer bound
  | None => if inheritedByObject layerGroupDivId then throw TypeError else ret tt
  end ;;
  Layer_bindInteraction layer ;;
  forEach InteractionEventNames (fun name =>
    let* callback := getOnMouch (getId layer) name in
    Layer_addEventListener layer name callback) ;;
  getElementById (getId layer) ;;
  let* preventDefault := newPreventDefault in
  Element_addEventListener (getId layer) "contextmenu" preventDefault ;;
  modify (fun st1 => set_boundLayers (<[layerGroupDivId := layer]> (boundLayers st1)) st1).

(** What the host can make the controller do, one call at a time. *)
Inductive Op : Type :=
| OpInit
| OpSetSelectedTool (name : string)
| OpSetToolFeatures (features : nat)
| OpBindLayer (layer : Layer) (layerGroupDivId : string)
| OpGetSelectedToolEventHandler (eventType : string)
| OpCallClosure (c : Closure) (event : Event).

(** The calls whose keys (tool name, layer id, group id) name no
    inherited property. *)
Definition plainOp (op : Op) : bool :=
  match op with
  | OpSetSelectedTool name => negb (inheritedByObject name)
  | OpBindLayer layer layerGroupDivId =>
      negb (inheritedByArray (getId layer)) && negb (inheritedByObject layerGroupDivId)
  | _ => true
  end.

Definition step (op : Op) : M State unit :=
  match op with
  | OpInit => init
  | OpSetSelectedTool name => setSelectedTool name
  | OpSetToolFeatures features => setToolFeatures features
  | OpBindLayer layer layerGroupDivId => bindLayer layer layerGroupDivId
  | OpGetSelectedToolEventHandler eventType =>
      getSelectedToolEventHandler eventType ;; ret tt
  | OpCallClosure c event => callClosure c event
  end.

(** A session: each call runs on the state the previous one left,
    whether it returned or raised. *)
Definition run (ops : list Op) (st : State) : State :=
  foldl (fun s op => stateAfter (step op) s) st ops.

(** The activation flags after a list of collaborator calls. *)
Definition replay (cs : list Call) (active : gset nat) : gset nat :=
  foldl (fun a c =>
    match c with
    | ToolActivate t true => a ∪ {[t]}
    | ToolActivate t false => a ∖ {[t]}
    | _ => a
    end) active cs.

(** The state after [if (func) { func(event); }]: the call when the
    tool has a function under that name, nothing otherwise. *)
Definition handed (func : option nat) (event : Event) (st : State) : State :=
  match func with
  | Some f => set_calls (calls st ++ [ToolHandler f event]) st
  | None => st
  end.

(** Every callback cached in the first state is cached, the same, in the
    second. *)
Definition cacheLe (st st' : State) : Prop :=
  forall layerId eventType callback,
    cached layerId eventType st = Some callback ->
    cached layerId eventType st' = Some callback.

(** The registrations [bindLayer] makes on a layer of id [layerId]: for
    each event name, in order, the callback cached for it. *)
Definition registrations (layerId : string) (names : list string) (st : State) :
    list (string * Closure) :=
  omap (fun name => (fun callback => (name, callback)) <$> cached layerId name st) names.

(** Two states that differ at most in the callback cache, the closure
    counter and the listeners of the layers. *)
Definition loopFrame (st st' : State) : Prop :=
  toolList st' = toolList st /\ selectedTool st' = selectedTool st
  /\ boundLayers st' = boundLayers st /\ activeTools st' = activeTools st
  /\ interactive st' = interactive st /\ document st' = document st
  /\ windowListeners st' = windowListeners st /\ calls st' = calls st.

(** A computation whose final state is always related to its initial
    one by [R], whether it returns or raises. *)
Definition respects (R : State -> State -> Prop) {A : Type} (m : M State A) : Prop :=
  forall st, R st (stateAfter m st).




(** A well-formed callback cache: what is cached for an event type is a
    callback built for that type, created before now, and no callback is
    cached under two keys. *)
Definition cacheWf (st : State) : Prop :=
  (forall layerId eventType callback,
     cached layerId eventType st = Some callback ->
     exists id, callback = OnMouch id eventType /\ id < nextClosure st)
  /\ (forall layerId1 eventType1 layerId2 eventType2 callback,
        cached layerId1 eventType1 st = Some callback ->
        cached layerId2 eventType2 st = Some callback ->
        layerId1 = layerId2 /\ eventType1 = eventType2).

(** The second state has a well-formed cache if the first has. *)
Definition keepsCacheWf (st st' : State) : Prop := cacheWf st -> cacheWf st'.




(** Every layer but the given one has the same listeners in both
    states. *)
Definition othersSame (layer : Layer) (st st' : State) : Prop :=
  forall other, layerRef other ≠ layerRef layer -> listenersOf other st' = listenersOf other st.

(** The closure counter did not go back. *)
Definition nextLe (st st' : State) : Prop := nextClosure st <= nextClosure st'.

(** Only the selected tool can have its activation flag set. *)
Definition onlySelectedActive (st : State) : Prop :=
  forall r, r ∈ activeTools st -> exists tool, selectedTool st = Some tool /\ toolRef tool = r.

End WithGui.

End ToolboxController.

(** ** Concrete sessions used by the examples below *)

Module Scenario.

Import DataController.

(** Images hold a list of slice numbers, appending concatenates; meta
    values are strings; the wrapper renames nothing but marks the object
    as dumped; merging lets the new object win. *)
Definition appendSlice (a b : list nat) : list nat := a ++ b.

Definition dumpToObject (m : gmap string string) : gmap string string :=
  <["dumped" := "yes"]> m.

Definition mergeObjects (m1 m2 : gmap string string) (idKey valueKey : string) :
    gmap string string :=
  <["mergedBy" := idKey]> (m2 ∪ m1).

Definition dicomMeta (n : string) : gmap string string :=
  {["x00020010" := "1.2.840.10008.1.2.1"; "InstanceNumber" := n]}.

Definition domMeta (uid : string) : gmap string string :=
  {["imageUid" := uid]}.

Definition twoImages : gmap ImageRef (ImageObject (ImageData := list nat)) :=
  {[ 1 := mkImage [10] []; 2 := mkImage [20] [] ]}.

(** A store holding one DICOM entry at index 0 and one listener. *)
Definition oneEntry : State (ImageData := list nat) (MetaValue := string) :=
  stateAfter
    (addNew dumpToObject 0 1 (dicomMeta "1") ;; addEventListener "imagechange" 7)
    (newController twoImages).

(** A toolbox with two tools, a page with two layer elements. *)
Definition scroll : ToolboxController.Tool :=
  ToolboxController.mkTool 1 {["mousedown" := 11; "mousemove" := 12]}.

Definition windowLevel : ToolboxController.Tool :=
  ToolboxController.mkTool 2 {["mousedown" := 21; "mousemove" := 22]}.

Definition tools : gmap string ToolboxController.Tool :=
  {["Scroll" := scroll; "WindowLevel" := windowLevel]}.

Definition layer0 : ToolboxController.Layer := ToolboxController.mkLayer 1 "layer-0".
Definition layer1 : ToolboxController.Layer := ToolboxController.mkLayer 2 "layer-1".

Definition page : gmap string (list (string * ToolboxController.Closure)) :=
  {["layer-0" := []; "layer-1" := []]}.

Definition toolbox : ToolboxController.State := ToolboxController.newController tools page.

Definition InteractionEventNames : list string :=
  ["mousedown"; "mousemove"; "mouseup"; "mouseout"; "wheel"; "dblclick";
   "touchstart"; "touchmove"; "touchend"].

Definition getEventOffset (event : ToolboxController.Event) : list (Z * Z) := [(3, 4)%Z].

(** A press of the right button and a press of the left one. *)
Definition rightPress : ToolboxController.Event :=
  ToolboxController.mkEvent "mousedown" (Some 2%Z) (Some 2%Z) None None None None.

Definition leftPress : ToolboxController.Event :=
  ToolboxController.mkEvent "mousedown" (Some 0%Z) (Some 1%Z) None None None None.

(** The toolbox once 'Scroll' was selected. *)
Definition scrollSelected : ToolboxController.State :=
  stateAfter (ToolboxController.setSelectedTool "Scroll") toolbox.

(** [bindLayer(layer0, 'group')], then [bindLayer(layer1, 'group')],
    then [bindLayer(layer0, 'group')] again. *)
Definition bound0 : ToolboxController.State :=
  stateAfter (ToolboxController.bindLayer InteractionEventNames layer0 "group") toolbox.

Definition bound1 : ToolboxController.State :=
  stateAfter (ToolboxController.bindLayer InteractionEventNames layer1 "group") bound0.

Definition bound0Again : ToolboxController.State :=
  stateAfter (ToolboxController.bindLayer InteractionEventNames layer0 "group") bound1.

(** A key press, an event for which no offset is found, a tool list
    without 'WindowLevel', and a layer whose element is not in the
    page. *)
Definition keyPress : ToolboxController.Event :=
  ToolboxController.mkEvent "keydown" None None None None None None.

Definition noOffset (event : ToolboxController.Event) : list (Z * Z) := [].

Definition threeOffsets (event : ToolboxController.Event) : list (Z * Z) :=
  [(3, 4)%Z; (5, 6)%Z; (7, 8)%Z].

Definition keyTool : ToolboxController.Tool :=
  ToolboxController.mkTool 3 {["keydown" := 31; "mousedown" := 32]}.

Definition keySelected : ToolboxController.State :=
  stateAfter (ToolboxController.setSelectedTool "Key")
    (ToolboxController.newController {["Key" := keyTool]} page).

Definition layer2 : ToolboxController.Layer := ToolboxController.mkLayer 3 "layer-2".

End Scenario.

(** ** Facts about the DataController *)

Module DataControllerFacts.

Import DataController.

Section Facts.

Context {ImageData MetaValue : Type}.
Variable appendSlice : ImageData -> ImageData -> ImageData.
Variable dumpToObject : gmap string MetaValue -> gmap string MetaValue.
Variable mergeObjects :
  gmap string MetaValue -> gmap string MetaValue -> string -> string -> gmap string MetaValue.

Local Abbreviation St := (State (ImageData := ImageData) (MetaValue := MetaValue)).

(** Calling the listeners of an image only grows the log of listener
    calls: entries, listeners, images and the closure counter stay. *)
Lemma forEach_callImageListener (ls : list (string * ImageListener)) (event : Event) (st : St) :
  exists extra,
    forEach ls (fun p => callImageListener p.2 event) st
    = (Normal tt,
       mkState (data st) (listenerHandler st) (images st) (nextClosure st)
         (called st ++ extra)).
Proof.
  revert st. induction ls as [|[ty l] ls IH]; intros st.
  - exists []. rewrite app_nil_r. destruct st; reflexivity.
  - simpl. unfold bind at 1.
    destruct l as [id|id index]; simpl.
    + destruct (IH st) as [extra ->]. exists extra. reflexivity.
    + unfold fireEvent, modify. simpl.
      match goal with |- context [forEach ls _ ?s] => destruct (IH s) as [extra ->] end.
      simpl. eexists. rewrite <- app_assoc. reflexivity.
Qed.

Lemma Image_fireEvent_live (img : ImageRef) (event : Event) (st : St) (o : ImageObject) :
  images st !! img = Some o ->
  exists extra,
    Image_fireEvent img event st
    = (Normal tt,
       mkState (data st) (listenerHandler st) (images st) (nextClosure st)
         (called st ++ extra)).
Proof.
  intros Ho. unfold Image_fireEvent. js_unfold. rewrite Ho.
  apply forEach_callImageListener.
Qed.

(** C4: for an index not in the store, [addNew] stores the image with
    the normalized meta: a meta that carries x00020010 (DICOM) is stored
    as the wrapper's dump of it, any other meta as it is. [get] gives the
    entry back, and the call returns when the image is an object. A second
    [addNew] at that index, with any image and meta, raises
    [new Error('Index already used in storage: ' + index)] and leaves the
    whole state, the stored entry included, as it was. *)
Theorem addNew_then_get (index : N) (img : ImageRef) (meta0 : gmap string MetaValue)
    (st : St) :
  data st !! index = None ->
  let st1 := stateAfter (addNew dumpToObject index img meta0) st in
  (is_Some (images st !! img) ->
     completion (addNew dumpToObject index img meta0) st = Normal tt)
  /\ get index st1
     = Some (mkEntry img
               match meta0 !! "x00020010" with
               | Some _ => dumpToObject meta0
               | None => meta0
               end)
  /\ forall img2 meta2,
       addNew dumpToObject index img2 meta2 st1
       = (Throw (JsErrorAt "Index already used in storage: " index), st1).
Proof.
  intros Hfree. unfold addNew, getFireEvent, Image_addEventListener, get, getMetaObject.
  js_unfold. rewrite Hfree. simpl.
  destruct (images st !! img) as [o|] eqn:Ho; simpl.
  - rewrite Ho. simpl. rewrite lookup_insert_eq.
    split; [reflexivity|]. split; [reflexivity|]. reflexivity.
  - rewrite lookup_insert_eq.
    split; [intros [o Ho']; discriminate|]. split; [reflexivity|]. reflexivity.
Qed.

(** C6: [update] on an existing entry appends the given image to the
    stored one through [appendSlice], and replaces the stored meta by
    [mergeObjects(old, getMetaObject(meta), idKey, 'value')] where a meta
    carrying x00020010 is dumped through the wrapper and merged on
    'InstanceNumber', and any other meta is taken as it is and merged on
    'imageUid'; other entries and the store's listeners stay. *)
Theorem update_appends_and_merges (index : N) (img : ImageRef)
    (meta0 : gmap string MetaValue) (st : St) (e : DataEntry) (o a : ImageObject) :
  data st !! index = Some e ->
  images st !! image e = Some o ->
  images st !! img = Some a ->
  let st1 := stateAfter (update appendSlice dumpToObject mergeObjects index img meta0) st in
  completion (update appendSlice dumpToObject mergeObjects index img meta0) st = Normal tt
  /\ get index st1
     = Some (mkEntry (image e)
               (match meta0 !! "x00020010" with
                | Some _ => mergeObjects (meta e) (dumpToObject meta0) "InstanceNumber" "value"
                | None => mergeObjects (meta e) meta0 "imageUid" "value"
                end))
  /\ content <$> images st1 !! image e = Some (appendSlice (content o) (content a))
  /\ (forall j, j ≠ index -> get j st1 = get j st)
  /\ listenerHandler st1 = listenerHandler st
  /\ (forall j, data st !! j = None ->
        get j (stateAfter (addNew dumpToObject j img meta0) st)
        = Some (mkEntry img
                  (match meta0 !! "x00020010" with
                   | Some _ => dumpToObject meta0
                   | None => meta0
                   end))).
Proof.
  intros He Ho Ha.
  assert (Hstore : forall j, data st !! j = None ->
            get j (stateAfter (addNew dumpToObject j img meta0) st)
            = Some (mkEntry img (getMetaObject dumpToObject meta0))).
  { intros j Hj. unfold addNew, getFireEvent, Image_addEventListener, get.
    js_unfold. rewrite Hj. simpl. rewrite Ha. simpl. rewrite Ha. simpl.
    apply lookup_insert_eq. }
  revert Hstore. unfold update, Image_appendSlice, get.
  js_unfold. rewrite He. simpl. rewrite Ho, Ha. simpl.
  match goal with |- context [Image_fireEvent ?i ?ev ?s] =>
    destruct (Image_fireEvent_live i ev s
                (mkImage (appendSlice (content o) (content a)) (imageListeners o)))
      as [extra ->]; [simpl; apply lookup_insert_eq|]
  end.
  simpl. rewrite !lookup_insert_eq. simpl. intros Hstore.
  split; [reflexivity|]. split.
  - unfold getMetaObject, idKeyOf. destruct (meta0 !! "x00020010"); reflexivity.
  - split; [reflexivity|]. split; [|split; [reflexivity|]].
    + intros j Hj. apply lookup_insert_ne. congruence.
    + intros j Hj. rewrite (Hstore j Hj). reflexivity.
Qed.

(** C7, as the code has it: [reset] empties the store, so [length] is 0
    whatever it held, and it leaves the listeners alone: those of the
    listener handler and those registered on the images. *)
Theorem reset_empties_store_only (st : St) :
  reset st
  = (Normal tt, mkState ∅ (listenerHandler st) (images st) (nextClosure st) (called st))
  /\ length (stateAfter reset st) = 0
  /\ (forall index, get index (stateAfter reset st) = None)
  /\ listenerHandler (stateAfter reset st) = listenerHandler st
  /\ images (stateAfter reset st) = images st.
Proof.
  unfold reset, length, get. js_unfold.
  repeat split; try reflexivity.
Qed.

(** C9: [update] at an index that is not in the store raises a
    TypeError (the entry read is [undefined]) before any mutation: the
    state after the call is the state before it. *)
Theorem update_missing_raises (index : N) (img : ImageRef)
    (meta0 : gmap string MetaValue) (st : St) :
  data st !! index = None ->
  update appendSlice dumpToObject mergeObjects index img meta0 st = (Throw TypeError, st).
Proof.
  intros Hnone. unfold update. js_unfold. rewrite Hnone. reflexivity.
Qed.

End Facts.

(** [addNew] of a DICOM meta at the free index 3 of a new store: the
    stored meta is the wrapper's dump (here: the meta marked as dumped),
    not the meta as given; then [addNew] again at index 3. *)
Lemma addNew_then_get_witness :
  let st := newController Scenario.twoImages in
  let st1 := stateAfter (addNew Scenario.dumpToObject 3 1 (Scenario.dicomMeta "1")) st in
  data st !! 3%N = None
  /\ completion (addNew Scenario.dumpToObject 3 1 (Scenario.dicomMeta "1")) st = Normal tt
  /\ get 3 st1
     = Some (mkEntry 1 {["dumped" := "yes"; "x00020010" := "1.2.840.10008.1.2.1";
                         "InstanceNumber" := "1"]})
  /\ forall img2 meta2,
       addNew Scenario.dumpToObject 3 img2 meta2 st1
       = (Throw (JsErrorAt "Index already used in storage: " 3), st1).
Proof.
  split; [reflexivity|].
  destruct (addNew_then_get Scenario.dumpToObject 3 1 (Scenario.dicomMeta "1")
              (newController Scenario.twoImages) eq_refl) as (Hret & Hget & Hagain).
  split; [apply Hret; exists (mkImage [10] []); reflexivity|].
  split; [exact Hget|exact Hagain].
Defined.

(** [update] of the DICOM entry at index 0 with a second DICOM slice. *)
Lemma update_appends_and_merges_witness :
  let st1 := stateAfter
    (update Scenario.appendSlice Scenario.dumpToObject Scenario.mergeObjects
       0 2 (Scenario.dicomMeta "2")) Scenario.oneEntry in
  get 0 st1
  = Some (mkEntry 1
       (Scenario.mergeObjects (Scenario.dumpToObject (Scenario.dicomMeta "1"))
          (Scenario.dumpToObject (Scenario.dicomMeta "2")) "InstanceNumber" "value"))
  /\ content <$> images st1 !! 1 = Some [10; 20].
Proof.
  pose proof (update_appends_and_merges Scenario.appendSlice Scenario.dumpToObject
    Scenario.mergeObjects 0 2 (Scenario.dicomMeta "2") Scenario.oneEntry
    (mkEntry 1 (Scenario.dumpToObject (Scenario.dicomMeta "1")))
    (mkImage [10] [("imagechange", FireEvent 0 0)]) (mkImage [20] [])
    eq_refl eq_refl eq_refl) as H.
  simpl in H. destruct H as (_ & Hget & Himg & _).
  split; [exact Hget | exact Himg].
Defined.

(** [update] at index 5, which the store does not hold. *)
Lemma update_missing_raises_witness :
  data Scenario.oneEntry !! 5%N = None
  /\ update Scenario.appendSlice Scenario.dumpToObject Scenario.mergeObjects
       5 2 (Scenario.domMeta "u") Scenario.oneEntry
     = (Throw TypeError, Scenario.oneEntry).
Proof.
  split; [reflexivity|].
  apply update_missing_raises. reflexivity.
Defined.

(** C7, as the claim has it, fails on the store of [Scenario.oneEntry]:
    after [reset] the store is empty, but the listener registered on the
    store is still there, the closure [addNew] registered on image 1 for
    index 0 is still there, and a change of that image is still passed on
    to the store's listener under the index of the cleared entry. *)
Lemma reset_keeps_listeners :
  let st1 := stateAfter reset Scenario.oneEntry in
  length st1 = 0
  /\ listenerHandler st1 = [("imagechange", 7)]
  /\ imageListeners <$> images st1 !! 1 = Some [("imagechange", FireEvent 0 0)]
  /\ called (stateAfter (Image_fireEvent 1 (mkEvent "imagechange" [] None)) st1)
     = [(7, mkEvent "imagechange" [] (Some 0%N))].
Proof.
  vm_compute. repeat split.
Qed.

End DataControllerFacts.

(** ** Facts about the ToolboxController *)

Module ToolboxControllerFacts.

Import ToolboxController.

Section Facts.

Variable InteractionEventNames : list string.
Variable getEventOffset : Event -> list (Z * Z).

(** With a tool selected, the handler is the tool's property of that
    name, [None] when the tool has none. *)
Lemma getSelectedToolEventHandler_selected (eventType : string) (st : State) (tool : Tool) :
  selectedTool st = Some tool ->
  getSelectedToolEventHandler eventType st = (Normal (handlers tool !! eventType), st).
Proof.
  intros Hsel. unfold getSelectedToolEventHandler, getSelectedTool. js_unfold.
  rewrite Hsel. reflexivity.
Qed.

(** C1, on the code: in every state where no tool is selected
    ([#selectedTool] is [null], as on a controller just constructed),
    [getSelectedToolEventHandler] raises a TypeError for every event
    type; it does not return. *)
Theorem getSelectedToolEventHandler_unselected_raises (st : State) (eventType : string) :
  getSelectedToolEventHandler eventType (set_selectedTool None st)
  = (Throw TypeError, set_selectedTool None st).
Proof. reflexivity. Qed.

Lemma hasTool_true (name : string) (st : State) (tool : Tool) :
  toolList st !! name = Some tool -> hasTool name st = true.
Proof.
  intros H. unfold hasTool, getToolList. apply bool_decide_eq_true. rewrite H. eauto.
Qed.

Lemma hasTool_false (name : string) (st : State) :
  toolList st !! name = None -> hasTool name st = false.
Proof.
  intros H. unfold hasTool, getToolList. apply bool_decide_eq_false. rewrite H.
  apply is_Some_None.
Qed.

(** The state [setSelectedTool] leaves for a registered name. *)
Lemma setSelectedTool_registered (name : string) (st : State) (tool : Tool) :
  toolList st !! name = Some tool ->
  setSelectedTool name st
  = (Normal tt,
     mkState (toolList st) (Some tool) (callbackStore st) (boundLayers st) (nextClosure st)
       (match selectedTool st with
        | Some previous => activeTools st ∖ {[toolRef previous]}
        | None => activeTools st
        end ∪ {[toolRef tool]})
       (layerListeners st) (interactive st) (document st) (windowListeners st)
       (calls st
        ++ match selectedTool st with
           | Some previous => [ToolActivate (toolRef previous) false]
           | None => []
           end
        ++ [ToolActivate (toolRef tool) true])).
Proof.
  intros Htool. unfold setSelectedTool.
  unfold bind at 1. unfold getState at 1. cbn beta iota.
  rewrite (hasTool_true _ _ _ Htool). cbn [negb].
  rewrite Htool.
  destruct (selectedTool st) as [previous|] eqn:Hsel;
    unfold Tool_activate, call; js_unfold.
  - rewrite <- app_assoc. reflexivity.
  - reflexivity.
Qed.

Lemma onlySelectedActive_subseteq (st : State) (tool : Tool) :
  onlySelectedActive st -> selectedTool st = Some tool ->
  activeTools st ⊆ {[toolRef tool]}.
Proof.
  intros Hinv Hsel r Hr. destruct (Hinv r Hr) as (t & Ht & <-).
  rewrite Hsel in Ht. injection Ht as ->. apply elem_of_singleton. reflexivity.
Qed.

Lemma onlySelectedActive_empty (st : State) :
  onlySelectedActive st -> selectedTool st = None -> activeTools st = ∅.
Proof.
  intros Hinv Hsel. apply set_eq. intros r. split.
  - intros Hr. destruct (Hinv r Hr) as (t & Ht & _). congruence.
  - intros Hr. destruct (not_elem_of_empty (C := gset nat) r Hr).
Qed.

(** Once the selected tool is deactivated, no tool is active. *)
Lemma deactivated_empty (st : State) :
  onlySelectedActive st ->
  match selectedTool st with
  | Some previous => activeTools st ∖ {[toolRef previous]}
  | None => activeTools st
  end = ∅.
Proof.
  intros Hinv. destruct (selectedTool st) as [previous|] eqn:Hsel.
  - pose proof (onlySelectedActive_subseteq _ _ Hinv Hsel) as Hsub.
    apply set_eq. intros r. rewrite elem_of_difference. split.
    + intros [Hr Hn]. destruct (Hn (Hsub r Hr)).
    + intros Hr. destruct (not_elem_of_empty (C := gset nat) r Hr).
  - apply onlySelectedActive_empty; assumption.
Qed.

Lemma setSelectedTool_unregistered (name : string) (st : State) :
  toolList st !! name = None ->
  setSelectedTool name st = (Throw (JsError ("Unknown tool: '" +:+ name +:+ "'")), st).
Proof.
  intros Hnone. unfold setSelectedTool.
  unfold bind at 1. unfold getState at 1. cbn beta iota.
  rewrite (hasTool_false _ _ Hnone). reflexivity.
Qed.

Lemma setSelectedTool_onlySelectedActive (name : string) (st : State) :
  onlySelectedActive st -> onlySelectedActive (stateAfter (setSelectedTool name) st).
Proof.
  intros Hinv. unfold stateAfter.
  destruct (toolList st !! name) as [tool|] eqn:Htool.
  - rewrite (setSelectedTool_registered _ _ _ Htool). cbn [snd].
    intros r Hr. cbn [activeTools selectedTool] in *.
    rewrite (deactivated_empty st Hinv), union_empty_l_L in Hr.
    apply elem_of_singleton in Hr. exists tool. split; [reflexivity|]. congruence.
  - rewrite (setSelectedTool_unregistered _ _ Htool). exact Hinv.
Qed.

(** X17: a name that is not in the tool list and that the list does not
    inherit makes [setSelectedTool] raise 'Unknown tool' with the state
    untouched; a registered one makes it call [activate(false)] on the
    tool selected before, if any, then select the named tool and call
    [activate(true)] on it. When only the selected tool was active before
    the call, at most one tool is active after each of these calls, and
    in the end exactly the named one. *)
Theorem setSelectedTool_transition (name : string) (st : State) :
  onlySelectedActive st ->
  (toolList st !! name = None ->
   inheritedByObject name = false ->
     setSelectedTool name st = (Throw (JsError ("Unknown tool: '" +:+ name +:+ "'")), st))
  /\ (forall tool, toolList st !! name = Some tool ->
        let st1 := stateAfter (setSelectedTool name) st in
        let made :=
          match selectedTool st with
          | Some previous => [ToolActivate (toolRef previous) false]
          | None => []
          end ++ [ToolActivate (toolRef tool) true] in
        completion (setSelectedTool name) st = Normal tt
        /\ selectedTool st1 = Some tool
        /\ calls st1 = calls st ++ made
        /\ activeTools st1 = {[toolRef tool]}
        /\ onlySelectedActive st1
        /\ forall done, done `prefix_of` made -> size (replay done (activeTools st)) ≤ 1).
Proof.
  intros Hinv. split.
  - intros Hnone _. apply setSelectedTool_unregistered, Hnone.
  - intros tool Htool. cbv zeta.
    unfold completion, stateAfter. rewrite (setSelectedTool_registered _ _ _ Htool).
    cbn [fst snd selectedTool calls activeTools].
    pose proof (deactivated_empty st Hinv) as Hact.
    split; [reflexivity|]. split; [reflexivity|]. split; [reflexivity|].
    split; [rewrite Hact; apply union_empty_l_L|].
    split.
    + intros r Hr. cbn [activeTools selectedTool] in *.
      rewrite Hact, union_empty_l_L in Hr. apply elem_of_singleton in Hr.
      exists tool. split; [reflexivity|]. congruence.
    + intros done [rest Hrest].
      destruct (selectedTool st) as [previous|] eqn:Hsel.
      * pose proof (onlySelectedActive_subseteq _ _ Hinv Hsel) as Hsub.
        destruct done as [|c1 [|c2 [|c3 done]]]; simpl in Hrest; simplify_eq; simpl.
        -- etrans; [apply (subseteq_size _ _ Hsub)|]. by rewrite size_singleton.
        -- rewrite Hact, size_empty. lia.
        -- rewrite Hact, union_empty_l_L, size_singleton. lia.
      * destruct done as [|c1 [|c2 done]]; simpl in Hrest; simplify_eq; simpl.
        -- rewrite Hact, size_empty. lia.
        -- rewrite Hact, union_empty_l_L, size_singleton. lia.
Qed.

(** C10: selecting the tool that is selected already runs the whole
    transition on it: [activate(false)] then [activate(true)], and it
    stays selected. *)
Theorem setSelectedTool_again (name : string) (st : State) (tool : Tool) :
  toolList st !! name = Some tool ->
  selectedTool st = Some tool ->
  completion (setSelectedTool name) st = Normal tt
  /\ selectedTool (stateAfter (setSelectedTool name) st) = Some tool
  /\ calls (stateAfter (setSelectedTool name) st)
     = calls st ++ [ToolActivate (toolRef tool) false; ToolActivate (toolRef tool) true].
Proof.
  intros Htool Hsel. unfold completion, stateAfter.
  rewrite (setSelectedTool_registered _ _ _ Htool), Hsel. simpl.
  repeat split.
Qed.

(** With no tool selected, [applySelectedTool] does nothing, whatever
    its second argument. *)
Lemma applySelectedTool_unselected (event : Event) (name : option string) (st : State) :
  selectedTool st = None -> applySelectedTool event name st = (Normal tt, st).
Proof.
  intros Hsel. unfold applySelectedTool. js_unfold. rewrite Hsel. reflexivity.
Qed.

Lemma applySelectedTool_current (event : Event) (st : State) (current : Tool) :
  selectedTool st = Some current ->
  applySelectedTool event None st
  = (Normal tt, handed (handlers current !! type event) event st).
Proof.
  intros Hsel. unfold applySelectedTool, call, handed. js_unfold. rewrite Hsel. simpl.
  destruct (handlers current !! type event); reflexivity.
Qed.

Lemma applySelectedTool_named (event : Event) (name : string) (st : State)
    (current tool : Tool) :
  selectedTool st = Some current ->
  toolList st !! name = Some tool ->
  applySelectedTool event (Some name) st
  = (Normal tt, handed (handlers tool !! type event) event st).
Proof.
  intros Hsel Htool. unfold applySelectedTool, call, handed. js_unfold.
  rewrite Hsel. simpl. rewrite Htool. simpl.
  destruct (handlers tool !! type event); reflexivity.
Qed.

(** With at least one offset, [augmentEventOffsets] returns the event
    with [_x], [_y] set from the first one; type and buttons stay. *)
Lemma augmentEventOffsets_some (event : Event) (st : State) (o0 : Z * Z) (rest : list (Z * Z)) :
  getEventOffset event = o0 :: rest ->
  exists event',
    augmentEventOffsets getEventOffset event st = (Normal event', st)
    /\ type event' = type event /\ button event' = button event
    /\ buttons event' = buttons event
    /\ _x event' = Some o0.1 /\ _y event' = Some o0.2.
Proof.
  intros Hoff. unfold augmentEventOffsets. rewrite Hoff.
  destruct rest as [|o1 [|o2 rest]]; eexists; (split; [reflexivity|]); simpl; auto.
Qed.

Lemma isRightClick_true (event : Event) :
  isRightClick event = true <->
  (type event = "mousedown" /\ button event = Some 2%Z)
  \/ (type event = "mousemove" /\ buttons event = Some 2%Z).
Proof.
  unfold isRightClick.
  rewrite orb_true_iff, !andb_true_iff, !bool_decide_eq_true. reflexivity.
Qed.

(** C5, as the code has it: for the callback of a mouse or touch event
    type (any but 'keydown' and 'touchend') and an event with an offset,
    the event is first given its offsets; then, with no tool selected,
    nothing is called; with a tool selected, a 'mousedown' whose button
    is not 2 goes to the selected tool's 'mousedown' handler, and a
    'mousedown' with button 2 or a 'mousemove' with buttons 2 goes to the
    handler of the registered 'WindowLevel' tool whichever tool is
    selected; a tool without a handler for the type makes the call a
    no-op. *)
Theorem onMouch_routing (eventType : string) (event : Event) (st : State)
    (o0 : Z * Z) (rest : list (Z * Z)) :
  eventType ≠ "keydown" -> eventType ≠ "touchend" ->
  getEventOffset event = o0 :: rest ->
  exists event',
    augmentEventOffsets getEventOffset event st = (Normal event', st)
    /\ type event' = type event
    /\ _x event' = Some o0.1 /\ _y event' = Some o0.2
    /\ (selectedTool st = None ->
          onMouch getEventOffset eventType event st = (Normal tt, st))
    /\ (forall current, selectedTool st = Some current ->
          type event = "mousedown" -> button event ≠ Some 2%Z ->
          onMouch getEventOffset eventType event st
          = (Normal tt, handed (handlers current !! "mousedown") event' st))
    /\ (forall current tool, selectedTool st = Some current ->
          toolList st !! "WindowLevel" = Some tool ->
          (type event = "mousedown" /\ button event = Some 2%Z)
          \/ (type event = "mousemove" /\ buttons event = Some 2%Z) ->
          onMouch getEventOffset eventType event st
          = (Normal tt, handed (handlers tool !! type event) event' st)).
Proof.
  intros Hkey Htouch Hoff.
  destruct (augmentEventOffsets_some event st o0 rest Hoff)
    as (event' & Haug & Hty & Hb & Hbs & Hx & Hy).
  exists event'. split; [exact Haug|]. split; [exact Hty|].
  split; [exact Hx|]. split; [exact Hy|].
  assert (Hbody : onMouch getEventOffset eventType event st
                  = (if isRightClick event'
                     then applySelectedTool event' (Some "WindowLevel")
                     else applySelectedTool event' None) st).
  { unfold onMouch. rewrite !decide_False by assumption.
    unfold bind. rewrite Haug. reflexivity. }
  split; [|split].
  - intros Hsel. rewrite Hbody.
    destruct (isRightClick event'); apply applySelectedTool_unselected; assumption.
  - intros current Hsel Hdown Hbutton. rewrite Hbody.
    assert (isRightClick event' = false) as ->.
    { apply not_true_is_false. rewrite isRightClick_true, Hty, Hb, Hdown.
      intros [[_ ?]|[? _]]; [contradiction|discriminate]. }
    rewrite (applySelectedTool_current _ _ _ Hsel), Hty, Hdown. reflexivity.
  - intros current tool Hsel Htool Hright. rewrite Hbody.
    assert (isRightClick event' = true) as ->.
    { rewrite isRightClick_true, Hty, Hb, Hbs. exact Hright. }
    rewrite (applySelectedTool_named _ _ _ _ _ Hsel Htool), Hty. reflexivity.
Qed.

(** *** Stepping through a method body *)

Lemma bind_normal {A B : Type} (m : M State A) (k : A -> M State B) (st st' : State) (a : A) :
  m st = (Normal a, st') -> bind m k st = k a st'.
Proof. intros H. unfold bind. rewrite H. reflexivity. Qed.

Lemma bind_throw {A B : Type} (m : M State A) (k : A -> M State B) (st st' : State) (e : Error) :
  m st = (Throw e, st') -> bind m k st = (Throw e, st').
Proof. intros H. unfold bind. rewrite H. reflexivity. Qed.

Section Respects.

Variable R : State -> State -> Prop.
Hypothesis R_refl : forall st, R st st.
Hypothesis R_trans : forall st1 st2 st3, R st1 st2 -> R st2 st3 -> R st1 st3.

Lemma respects_ret {A : Type} (a : A) : respects R (ret a).
Proof. intros st. apply R_refl. Qed.

Lemma respects_throw {A : Type} (e : Error) : respects R (throw (A := A) e).
Proof. intros st. apply R_refl. Qed.

Lemma respects_getState : respects R getState.
Proof. intros st. apply R_refl. Qed.

Lemma respects_modify (f : State -> State) :
  (forall st, R st (f st)) -> respects R (modify f).
Proof. intros Hf st. apply Hf. Qed.

Lemma respects_bind {A B : Type} (m : M State A) (k : A -> M State B) :
  respects R m -> (forall a, respects R (k a)) -> respects R (bind m k).
Proof.
  intros Hm Hk st. unfold stateAfter, bind.
  specialize (Hm st). unfold stateAfter in Hm.
  destruct (m st) as [[a|e] st1]; simpl in *.
  - eapply R_trans; [exact Hm|]. apply (Hk a st1).
  - exact Hm.
Qed.

Lemma respects_forEach {A : Type} (l : list A) (body : A -> M State unit) :
  (forall x, respects R (body x)) -> respects R (forEach l body).
Proof.
  intros Hbody. induction l as [|x l IH]; simpl.
  - apply respects_ret.
  - apply respects_bind; [apply Hbody | intros _; exact IH].
Qed.

Lemma respects_run (step0 : Op -> M State unit) (ops : list Op) (st : State) :
  (forall op, respects R (step0 op)) ->
  R st (foldl (fun s op => stateAfter (step0 op) s) st ops).
Proof.
  intros Hstep. revert st. induction ops as [|op ops IH]; intros st; simpl.
  - apply R_refl.
  - eapply R_trans; [apply (Hstep op st)|]. apply IH.
Qed.

End Respects.

Lemma cacheLe_refl (st : State) : cacheLe st st.
Proof. intros l k c H. exact H. Qed.

Lemma cacheLe_trans (st1 st2 st3 : State) : cacheLe st1 st2 -> cacheLe st2 st3 -> cacheLe st1 st3.
Proof. intros H12 H23 l k c H. apply H23, H12, H. Qed.

Lemma cacheLe_same_store (st st' : State) :
  callbackStore st' = callbackStore st -> cacheLe st st'.
Proof. intros Heq l k c H. unfold cached in *. rewrite Heq. exact H. Qed.



Lemma loopFrame_refl (st : State) : loopFrame st st.
Proof. repeat split. Qed.

Lemma loopFrame_trans (st1 st2 st3 : State) :
  loopFrame st1 st2 -> loopFrame st2 st3 -> loopFrame st1 st3.
Proof.
  intros (?&?&?&?&?&?&?&?) (?&?&?&?&?&?&?&?). repeat split; congruence.
Qed.

(** *** The callback cache *)

Lemma cached_row (layerId eventType : string) (st : State) (callback : Closure) :
  cached layerId eventType st = Some callback ->
  exists row, callbackStore st !! layerId = Some row /\ row !! eventType = Some callback.
Proof.
  unfold cached. destruct (callbackStore st !! layerId) as [row|]; simpl; [eauto|discriminate].
Qed.

(** A cached callback is returned as it is and nothing changes. *)
Lemma getOnMouch_hit (layerId eventType : string) (st : State) (callback : Closure) :
  cached layerId eventType st = Some callback ->
  getOnMouch layerId eventType st = (Normal callback, st).
Proof.
  intros Hc. destruct (cached_row _ _ _ _ Hc) as (row & Hrow & _).
  unfold getOnMouch. unfold bind at 1. unfold getState at 1. cbn beta iota.
  rewrite Hrow. unfold bind, ret, getState. cbn beta iota. rewrite Hc. reflexivity.
Qed.

(** Without one, a new closure is created, stored and returned. *)
Lemma getOnMouch_miss (layerId eventType : string) (st : State) :
  cached layerId eventType st = None ->
  getOnMouch layerId eventType st
  = (Normal (OnMouch (nextClosure st) eventType),
     mkState (toolList st) (selectedTool st)
       (<[layerId := <[eventType := OnMouch (nextClosure st) eventType]>
                       (default ∅ (callbackStore st !! layerId))]> (callbackStore st))
       (boundLayers st) (S (nextClosure st)) (activeTools st) (layerListeners st)
       (interactive st) (document st) (windowListeners st) (calls st)).
Proof.
  intros Hc. unfold getOnMouch. unfold bind at 1. unfold getState at 1. cbn beta iota.
  destruct (callbackStore st !! layerId) as [row|] eqn:Hrow.
  - unfold bind, ret, getState, modify. cbn beta iota. rewrite Hc.
    unfold set_callbackStore, set_nextClosure. cbn. rewrite Hrow. reflexivity.
  - unfold bind, ret, getState, modify. cbn beta iota.
    unfold cached, set_callbackStore, set_nextClosure. cbn.
    rewrite lookup_insert_eq. cbn. rewrite lookup_empty. cbn.
    rewrite insert_insert_eq. reflexivity.
Qed.

(** [#getOnMouch] always returns; what it returns is then the cached
    callback, earlier cache entries stay, and only the cache and the
    closure counter can have changed. *)
Lemma getOnMouch_total (layerId eventType : string) (st : State) :
  exists callback st',
    getOnMouch layerId eventType st = (Normal callback, st')
    /\ cached layerId eventType st' = Some callback
    /\ cacheLe st st' /\ loopFrame st st'
    /\ layerListeners st' = layerListeners st.
Proof.
  destruct (cached layerId eventType st) as [callback|] eqn:Hc.
  - exists callback, st. rewrite (getOnMouch_hit _ _ _ _ Hc).
    repeat split; auto using cacheLe_refl.
  - eexists _, _. rewrite (getOnMouch_miss _ _ _ Hc). split; [reflexivity|].
    split; [|split; [|repeat split]].
    + unfold cached. cbn. rewrite lookup_insert_eq. cbn. apply lookup_insert_eq.
    + intros l k c Hl. unfold cached in *. cbn.
      destruct (decide (l = layerId)) as [->|Hne].
      * rewrite lookup_insert_eq. cbn.
        destruct (callbackStore st !! layerId) as [row|]; [|discriminate]. cbn in *.
        destruct (decide (k = eventType)) as [->|Hk]; [congruence|].
        rewrite lookup_insert_ne by congruence. exact Hl.
      * rewrite lookup_insert_ne by congruence. exact Hl.
Qed.



(** *** Filtering lists of listeners *)

Lemma filter_all {A : Type} (P : A -> Prop) `{!forall x, Decision (P x)} (l : list A) :
  (forall x, x ∈ l -> P x) -> filter P l = l.
Proof.
  induction l as [|a l IH]; intros Hall; [reflexivity|].
  rewrite filter_cons_True by (apply Hall; left).
  f_equal. apply IH. intros x Hx. apply Hall. right. exact Hx.
Qed.


(** *** The two loops over [InteractionEventNames] *)

Lemma registrations_cons (layerId name : string) (names : list string) (st : State)
    (callback : Closure) :
  cached layerId name st = Some callback ->
  registrations layerId (name :: names) st
  = (name, callback) :: registrations layerId names st.
Proof. intros H. unfold registrations. simpl. rewrite H. reflexivity. Qed.

Lemma registrations_ext (layerId : string) (names : list string) (st st' : State) :
  (forall name, name ∈ names -> is_Some (cached layerId name st)) ->
  cacheLe st st' ->
  registrations layerId names st' = registrations layerId names st.
Proof.
  intros Hall Hle. induction names as [|name names IH]; [reflexivity|].
  destruct (Hall name) as [c Hc]; [left|].
  rewrite (registrations_cons _ _ _ _ _ Hc), (registrations_cons _ _ _ _ _ (Hle _ _ _ Hc)).
  f_equal. apply IH. intros n Hn. apply Hall. right. exact Hn.
Qed.


(** The loop of [bindLayer]: it returns, fills the cache for every
    name, and appends to the layer's listeners one registration per name,
    in order. *)
Lemma addLoop_spec (layer : Layer) (names : list string) (st : State) :
  exists st',
    forEach names (fun name =>
      let* callback := getOnMouch (getId layer) name in
      Layer_addEventListener layer name callback) st = (Normal tt, st')
    /\ cacheLe st st' /\ loopFrame st st'
    /\ (forall name, name ∈ names -> is_Some (cached (getId layer) name st'))
    /\ listenersOf layer st'
       = listenersOf layer st ++ registrations (getId layer) names st'.
Proof.
  revert st. induction names as [|name names IH]; intros st.
  - exists st. simpl. rewrite app_nil_r.
    repeat split; auto using cacheLe_refl. intros n Hn. inversion Hn.
  - destruct (getOnMouch_total (getId layer) name st)
      as (callback & st1 & Hget & Hc1 & Hle1 & Hfr1 & Hls1).
    set (st2 := set_layerListeners
      (<[layerRef layer := listenersOf layer st1 ++ [(name, callback)]]>
         (layerListeners st1)) st1).
    destruct (IH st2) as (st' & Hloop & Hle2 & Hfr2 & Hall & Hls2).
    exists st'. cbn [forEach].
    rewrite (bind_normal _ _ st st2 tt).
    2:{ rewrite (bind_normal _ _ _ _ _ Hget). reflexivity. }
    split; [exact Hloop|].
    assert (Hle12 : cacheLe st1 st2) by (apply cacheLe_same_store; reflexivity).
    assert (Hc' : cached (getId layer) name st' = Some callback)
      by (apply Hle2, Hle12, Hc1).
    split; [eauto using cacheLe_trans|].
    split; [eapply loopFrame_trans; [exact Hfr1|]; eapply loopFrame_trans; [|exact Hfr2];
            repeat split|].
    split.
    + intros n Hn. apply elem_of_cons in Hn as [->|Hn]; [eauto|apply Hall, Hn].
    + rewrite Hls2, (registrations_cons _ _ _ _ _ Hc').
      unfold st2, listenersOf at 1. cbn. rewrite lookup_insert_eq. cbn.
      unfold listenersOf. rewrite Hls1, <- app_assoc. reflexivity.
Qed.

(** The loop of [#unbindLayer]: it returns, fills the cache for every
    name, and takes out of the layer's listeners exactly the
    registrations of these names. *)
Lemma removeLoop_spec (layer : Layer) (names : list string) (st : State) :
  exists st',
    forEach names (fun name =>
      let* callback := getOnMouch (getId layer) name in
      Layer_removeEventListener layer name callback) st = (Normal tt, st')
    /\ cacheLe st st' /\ loopFrame st st'
    /\ (forall name, name ∈ names -> is_Some (cached (getId layer) name st'))
    /\ listenersOf layer st'
       = filter (fun p => p ∉ registrations (getId layer) names st') (listenersOf layer st).
Proof.
  revert st. induction names as [|name names IH]; intros st.
  - exists st. simpl.
    repeat split; auto using cacheLe_refl.
    + intros n Hn. inversion Hn.
    + symmetry. apply filter_all. intros p _ Hp. inversion Hp.
  - destruct (getOnMouch_total (getId layer) name st)
      as (callback & st1 & Hget & Hc1 & Hle1 & Hfr1 & Hls1).
    set (st2 := set_layerListeners
      (<[layerRef layer := filter (fun p => p ≠ (name, callback)) (listenersOf layer st1)]>
         (layerListeners st1)) st1).
    destruct (IH st2) as (st' & Hloop & Hle2 & Hfr2 & Hall & Hls2).
    exists st'. cbn [forEach].
    rewrite (bind_normal _ _ st st2 tt).
    2:{ rewrite (bind_normal _ _ _ _ _ Hget). reflexivity. }
    split; [exact Hloop|].
    assert (Hle12 : cacheLe st1 st2) by (apply cacheLe_same_store; reflexivity).
    assert (Hc' : cached (getId layer) name st' = Some callback)
      by (apply Hle2, Hle12, Hc1).
    split; [eauto using cacheLe_trans|].
    split; [eapply loopFrame_trans; [exact Hfr1|]; eapply loopFrame_trans; [|exact Hfr2];
            repeat split|].
    split.
    + intros n Hn. apply elem_of_cons in Hn as [->|Hn]; [eauto|apply Hall, Hn].
    + rewrite Hls2, (registrations_cons _ _ _ _ _ Hc').
      unfold st2, listenersOf at 1. cbn. rewrite lookup_insert_eq. cbn.
      unfold listenersOf. rewrite Hls1, list_filter_filter.
      apply list_filter_iff. intros p. rewrite not_elem_of_cons. tauto.
Qed.



(** *** Binding and unbinding a layer *)





(** *** What every call of the controller keeps *)











Lemma newController_onlySelectedActive (tools : gmap string Tool)
    (doc : gmap string (list (string * Closure))) :
  onlySelectedActive (newController tools doc).
Proof. intros r Hr. destruct (not_elem_of_empty (C := gset nat) r Hr). Qed.



End Facts.

(** C5, as the claim has it, fails when no tool is selected: the
    'WindowLevel' tool is registered and has a 'mousedown' handler, the
    event is a press of button 2, and the callback calls nothing. *)
Lemma right_click_unselected_not_routed :
  toolList Scenario.toolbox !! "WindowLevel" = Some Scenario.windowLevel
  /\ handlers Scenario.windowLevel !! "mousedown" = Some 21
  /\ type Scenario.rightPress = "mousedown"
  /\ button Scenario.rightPress = Some 2%Z
  /\ selectedTool Scenario.toolbox = None
  /\ completion (onMouch Scenario.getEventOffset "mousedown" Scenario.rightPress)
       Scenario.toolbox = Normal tt
  /\ calls (stateAfter (onMouch Scenario.getEventOffset "mousedown" Scenario.rightPress)
              Scenario.toolbox) = [].
Proof.
  vm_compute. repeat split.
Qed.

(** C2, on the code: the listener [bindLayer] puts on the layer's
    element for 'contextmenu' is a closure of its own, and [#unbindLayer]
    asks to remove another, new one. After layer0 was bound and then
    replaced by layer1 in its group, layer0 has lost its interaction
    listeners and is no longer interactive, but its element still has the
    'contextmenu' listener; binding layer0 again adds a second one. *)
Theorem contextmenu_listener_left_by_unbind :
  completion (bindLayer Scenario.InteractionEventNames Scenario.layer0 "group")
    Scenario.toolbox = Normal tt
  /\ document Scenario.bound0 !! "layer-0" = Some [("contextmenu", PreventDefault 9)]
  /\ completion (bindLayer Scenario.InteractionEventNames Scenario.layer1 "group")
       Scenario.bound0 = Normal tt
  /\ boundLayers Scenario.bound1 !! "group" = Some Scenario.layer1
  /\ listenersOf Scenario.layer0 Scenario.bound1 = []
  /\ (layerRef Scenario.layer0 ∉ interactive Scenario.bound1)
  /\ document Scenario.bound1 !! "layer-0" = Some [("contextmenu", PreventDefault 9)]
  /\ document Scenario.bound0Again !! "layer-0"
     = Some [("contextmenu", PreventDefault 9); ("contextmenu", PreventDefault 22)].
Proof.
  split; [vm_compute; reflexivity|]. split; [vm_compute; reflexivity|].
  split; [vm_compute; reflexivity|]. split; [vm_compute; reflexivity|].
  split; [vm_compute; reflexivity|].
  split; [|split; vm_compute; reflexivity].
  refine (bool_decide_unpack _ _). vm_compute. exact I.
Qed.

(** From 'Scroll' selected: an unknown name, then 'WindowLevel'. *)
Lemma setSelectedTool_transition_witness :
  onlySelectedActive Scenario.scrollSelected
  /\ setSelectedTool "Zoom" Scenario.scrollSelected
     = (Throw (JsError "Unknown tool: 'Zoom'"), Scenario.scrollSelected)
  /\ selectedTool (stateAfter (setSelectedTool "WindowLevel") Scenario.scrollSelected)
     = Some Scenario.windowLevel
  /\ calls (stateAfter (setSelectedTool "WindowLevel") Scenario.scrollSelected)
     = [ToolActivate 1 true; ToolActivate 1 false; ToolActivate 2 true]
  /\ activeTools (stateAfter (setSelectedTool "WindowLevel") Scenario.scrollSelected)
     = {[2]}.
Proof.
  assert (Hinv : onlySelectedActive Scenario.scrollSelected)
    by (apply setSelectedTool_onlySelectedActive, newController_onlySelectedActive).
  split; [exact Hinv|].
  destruct (setSelectedTool_transition "Zoom" Scenario.scrollSelected Hinv) as [Hzoom _].
  destruct (setSelectedTool_transition "WindowLevel" Scenario.scrollSelected Hinv)
    as [_ Hwl].
  destruct (Hwl Scenario.windowLevel eq_refl) as (_ & Hsel & Hcalls & Hact & _).
  split; [exact (Hzoom eq_refl eq_refl)|].
  split; [exact Hsel|]. split; [exact Hcalls|]. exact Hact.
Defined.

(** Selecting 'Scroll' while it is selected. *)
Lemma setSelectedTool_again_witness :
  toolList Scenario.scrollSelected !! "Scroll" = Some Scenario.scroll
  /\ selectedTool Scenario.scrollSelected = Some Scenario.scroll
  /\ completion (setSelectedTool "Scroll") Scenario.scrollSelected = Normal tt
  /\ selectedTool (stateAfter (setSelectedTool "Scroll") Scenario.scrollSelected)
     = Some Scenario.scroll
  /\ calls (stateAfter (setSelectedTool "Scroll") Scenario.scrollSelected)
     = calls Scenario.scrollSelected ++ [ToolActivate 1 false; ToolActivate 1 true].
Proof.
  split; [reflexivity|]. split; [reflexivity|].
  apply (setSelectedTool_again "Scroll" Scenario.scrollSelected Scenario.scroll);
    reflexivity.
Defined.

(** With 'Scroll' selected: a left press goes to its handler 11, a right
    press to handler 21 of 'WindowLevel'. *)
Lemma onMouch_routing_witness :
  exists event',
    type event' = "mousedown" /\ _x event' = Some 3%Z /\ _y event' = Some 4%Z
    /\ onMouch Scenario.getEventOffset "mousedown" Scenario.leftPress
         Scenario.scrollSelected
       = (Normal tt, handed (Some 11) event' Scenario.scrollSelected)
    /\ onMouch Scenario.getEventOffset "mousedown" Scenario.rightPress
         Scenario.scrollSelected
       = (Normal tt,
          handed (Some 21)
            (mkEvent "mousedown" (Some 2%Z) (Some 2%Z) (Some 3%Z) (Some 4%Z) None None)
            Scenario.scrollSelected).
Proof.
  destruct (onMouch_routing Scenario.getEventOffset "mousedown" Scenario.leftPress
              Scenario.scrollSelected (3, 4)%Z [] ltac:(discriminate) ltac:(discriminate)
              eq_refl)
    as (event' & _ & Hty & Hx & Hy & _ & Hleft & _).
  destruct (onMouch_routing Scenario.getEventOffset "mousedown" Scenario.rightPress
              Scenario.scrollSelected (3, 4)%Z [] ltac:(discriminate) ltac:(discriminate)
              eq_refl)
    as (event2 & Haug & _ & _ & _ & _ & _ & Hright).
  injection Haug as <-.
  exists event'. split; [exact Hty|]. split; [exact Hx|]. split; [exact Hy|]. split.
  - apply (Hleft Scenario.scroll); [reflexivity|reflexivity|discriminate].
  - apply (Hright Scenario.scroll Scenario.windowLevel); [reflexivity|reflexivity|].
    left. split; reflexivity.
Defined.

(** None of the nine event names of the viewer is a name an Array
    inherits. *)
Lemma InteractionEventNames_plain :
  Forall (fun name => inheritedByArray name = false) Scenario.InteractionEventNames.
Proof. refine (bool_decide_unpack _ _). vm_compute. exact I. Qed.


End ToolboxControllerFacts.

(** ** More facts about the DataController *)

Module DataControllerExtras.

Import DataController.

Section Facts.

Context {ImageData MetaValue : Type}.
Variable appendSlice : ImageData -> ImageData -> ImageData.
Variable dumpToObject : gmap string MetaValue -> gmap string MetaValue.
Variable mergeObjects :
  gmap string MetaValue -> gmap string MetaValue -> string -> string -> gmap string MetaValue.

Local Abbreviation St := (State (ImageData := ImageData) (MetaValue := MetaValue)).

(** X2: [setImage] at an index that is not in the store raises a TypeError
    on the assignment [this.#data[index].image = image]: no event is
    fired, no listener registered, the state is as before. *)
Theorem setImage_missing_raises (index : N) (img : ImageRef) (st : St) :
  data st !! index = None ->
  setImage index img st = (Throw TypeError, st).
Proof.
  intros Hnone. unfold setImage. js_unfold. rewrite Hnone. reflexivity.
Qed.

(** X3: [setImage] on an existing entry with an image object: the entry gets
    the image and keeps its meta; each listener of the store registered
    for 'imageset' is called once, in registration order, with
    [{type: 'imageset', value: [image], dataid: index}]; the image gets
    one more 'imagechange' listener, a new closure for this index; no
    other image, the replaced one included, loses or gains a listener. *)
Theorem setImage_replaces_and_notifies (index : N) (img : ImageRef) (st : St)
    (e : DataEntry) (o : ImageObject) :
  data st !! index = Some e ->
  images st !! img = Some o ->
  let st1 := stateAfter (setImage index img) st in
  completion (setImage index img) st = Normal tt
  /\ get index st1 = Some (mkEntry img (meta e))
  /\ (forall j, j ≠ index -> get j st1 = get j st)
  /\ called st1
     = called st
       ++ ((fun p => (p.2, mkEvent "imageset" [img] (Some index)))
           <$> filter (fun p => p.1 = "imageset") (listenerHandler st))
  /\ images st1 !! img
     = Some (mkImage (content o)
               (imageListeners o ++ [("imagechange", FireEvent (nextClosure st) index)]))
  /\ (forall other, other ≠ img -> images st1 !! other = images st !! other)
  /\ listenerHandler st1 = listenerHandler st.
Proof.
  intros He Ho. unfold setImage, fireEvent, getFireEvent, Image_addEventListener, get.
  js_unfold. rewrite He. simpl. rewrite Ho. simpl. rewrite Ho. simpl.
  rewrite !lookup_insert_eq.
  split; [reflexivity|]. split; [reflexivity|]. split.
  { intros j Hj. apply lookup_insert_ne. congruence. }
  split; [reflexivity|]. split; [reflexivity|]. split; [|reflexivity].
  intros other Hother. apply lookup_insert_ne. congruence.
Qed.

(** X4: [length()] counts the indices in use: [addNew] at a free index adds
    one, whether or not the call then returns; [addNew] at a used index,
    [update] and [setImage] never change it, whether they return or
    raise. *)
Theorem length_counts_indices (index : N) (img : ImageRef)
    (meta0 : gmap string MetaValue) (st : St) :
  (data st !! index = None ->
     length (stateAfter (addNew dumpToObject index img meta0) st) = S (length st))
  /\ (is_Some (data st !! index) ->
        length (stateAfter (addNew dumpToObject index img meta0) st) = length st)
  /\ length (stateAfter (update appendSlice dumpToObject mergeObjects index img meta0) st)
     = length st
  /\ length (stateAfter (setImage index img) st) = length st.
Proof.
  unfold length. split; [|split; [|split]].
  - intros Hfree. unfold addNew, getFireEvent, Image_addEventListener.
    js_unfold. rewrite Hfree. simpl.
    destruct (images st !! img) as [o|] eqn:Ho; simpl; [rewrite Ho; simpl|];
      apply map_size_insert_None; assumption.
  - intros [e He]. unfold addNew. js_unfold. rewrite He. reflexivity.
  - unfold update, Image_appendSlice. js_unfold.
    destruct (data st !! index) as [e|] eqn:He; simpl; [|reflexivity].
    destruct (images st !! image e) as [o|] eqn:Ho; simpl; [|reflexivity].
    destruct (images st !! img) as [a|] eqn:Ha; simpl; [|reflexivity].
    match goal with |- context [Image_fireEvent ?i ?ev ?s] =>
      destruct (DataControllerFacts.Image_fireEvent_live i ev s
                  (mkImage (appendSlice (content o) (content a)) (imageListeners o)))
        as [extra ->]; [simpl; apply lookup_insert_eq|]
    end.
    simpl. apply map_size_insert_Some. eauto.
  - unfold setImage, fireEvent, getFireEvent, Image_addEventListener. js_unfold.
    destruct (data st !! index) as [e|] eqn:He; simpl; [|reflexivity].
    destruct (images st !! img) as [o|] eqn:Ho; simpl; [rewrite Ho; simpl|];
      apply map_size_insert_Some; eauto.
Qed.

(** X5: after [addNew(index, image, meta)] on an image nobody listens to yet,
    an 'imagechange' event of the image reaches every listener of the
    store registered for 'imagechange', in registration order, with
    [dataid] set to the index; an event of another type of that image
    reaches none. *)
Theorem imagechange_forwarded_with_index (index : N) (img : ImageRef)
    (meta0 : gmap string MetaValue) (st : St) (o : ImageObject) (event : Event) :
  data st !! index = None ->
  images st !! img = Some o ->
  imageListeners o = [] ->
  let st1 := stateAfter (addNew dumpToObject index img meta0) st in
  let st2 := stateAfter (Image_fireEvent img event) st1 in
  completion (Image_fireEvent img event) st1 = Normal tt
  /\ (type event = "imagechange" ->
        called st2
        = called st
          ++ ((fun p => (p.2, mkEvent "imagechange" (value event) (Some index)))
              <$> filter (fun p => p.1 = "imagechange") (listenerHandler st)))
  /\ (type event ≠ "imagechange" -> called st2 = called st).
Proof.
  intros Hfree Ho Hnil.
  unfold addNew, getFireEvent, Image_addEventListener, Image_fireEvent.
  js_unfold. rewrite Hfree. simpl. rewrite Ho. simpl. rewrite Ho. simpl.
  rewrite lookup_insert_eq. simpl. rewrite Hnil. simpl.
  rewrite filter_cons. cbn [fst].
  destruct (decide ("imagechange" = type event)) as [Heq|Hne].
  - rewrite filter_nil. unfold fireEvent, ListenerHandler_fireEvent. js_unfold.
    split; [reflexivity|]. split; [|intros Hne; congruence].
    intros _. rewrite <- Heq. reflexivity.
  - rewrite filter_nil. simpl.
    split; [reflexivity|]. split; [intros Heq; congruence|]. intros _. reflexivity.
Qed.

End Facts.

Lemma setImage_missing_raises_witness :
  data Scenario.oneEntry !! 4%N = None
  /\ setImage 4 2 Scenario.oneEntry = (Throw TypeError, Scenario.oneEntry).
Proof.
  split; [reflexivity|]. apply setImage_missing_raises. reflexivity.
Defined.

Lemma setImage_replaces_and_notifies_witness :
  let st1 := stateAfter (setImage 0 2) Scenario.oneEntry in
  get 0 st1 = Some (mkEntry 2 (Scenario.dumpToObject (Scenario.dicomMeta "1")))
  /\ images st1 !! 2 = Some (mkImage [20] [("imagechange", FireEvent 1 0)])
  /\ images st1 !! 1 = Some (mkImage [10] [("imagechange", FireEvent 0 0)]).
Proof.
  destruct (setImage_replaces_and_notifies 0 2 Scenario.oneEntry
              (mkEntry 1 (Scenario.dumpToObject (Scenario.dicomMeta "1")))
              (mkImage [20] []) eq_refl eq_refl)
    as (_ & Hget & _ & _ & Himg & Hother & _).
  split; [exact Hget|]. split; [exact Himg|].
  exact (eq_trans (Hother 1 ltac:(discriminate)) eq_refl).
Defined.

Lemma imagechange_forwarded_with_index_witness :
  let st0 := stateAfter (addEventListener "imagechange" 7) (newController Scenario.twoImages) in
  let st1 := stateAfter (addNew Scenario.dumpToObject 5 2 (Scenario.domMeta "u")) st0 in
  called (stateAfter (Image_fireEvent 2 (mkEvent "imagechange" [2] None)) st1)
  = [(7, mkEvent "imagechange" [2] (Some 5%N))].
Proof.
  destruct (imagechange_forwarded_with_index Scenario.dumpToObject 5 2
              (Scenario.domMeta "u")
              (stateAfter (addEventListener "imagechange" 7)
                 (newController Scenario.twoImages))
              (mkImage [20] []) (mkEvent "imagechange" [2] None)
              eq_refl eq_refl eq_refl) as (_ & Hfwd & _).
  exact (Hfwd eq_refl).
Defined.

End DataControllerExtras.

(** ** More facts about the ToolboxController *)

Module ToolboxControllerExtras.

Import ToolboxController.
Import ToolboxControllerFacts.

Section Facts.

Variable InteractionEventNames : list string.
Variable getEventOffset : Event -> list (Z * Z).

(** X6: for a name registered in the tool list, [hasTool] is true,
    [setSelectedTool] returns, and after it [getSelectedToolEventHandler]
    gives the named tool's handler for every event type ([None], that is
    [undefined], when the tool has none), whichever tool was selected
    before. *)
Theorem hasTool_setSelectedTool_handler (name : string) (st : State) (tool : Tool) :
  toolList st !! name = Some tool ->
  hasTool name st = true
  /\ completion (setSelectedTool name) st = Normal tt
  /\ forall eventType,
       completion (setSelectedTool name ;; getSelectedToolEventHandler eventType) st
       = Normal (handlers tool !! eventType).
Proof.
  intros Htool. split; [exact (hasTool_true _ _ _ Htool)|]. split.
  - unfold completion. rewrite (setSelectedTool_registered _ _ _ Htool). reflexivity.
  - intros eventType. unfold completion.
    rewrite (bind_normal _ _ _ _ _ (setSelectedTool_registered _ _ _ Htool)).
    rewrite (getSelectedToolEventHandler_selected eventType _ tool); reflexivity.
Qed.

(** X7: the callbacks for 'keydown' and 'touchend' pass the event on as it
    came: no offset is computed (whatever [getEventOffset] would give, no
    offset at all included), and a press of button 2 is not sent to
    'WindowLevel'. The selected tool's handler for the type of the event
    gets the event; without a selected tool or without such a handler
    nothing is called. *)
Theorem keydown_touchend_forward_raw (eventType : string) (event : Event) (st : State) :
  eventType = "keydown" \/ eventType = "touchend" ->
  onMouch getEventOffset eventType event st
  = (Normal tt,
     match selectedTool st with
     | Some current => handed (handlers current !! type event) event st
     | None => st
     end).
Proof.
  intros Hkind.
  assert (Hbody : onMouch getEventOffset eventType event st
                  = applySelectedTool event None st).
  { unfold onMouch. destruct Hkind as [-> | ->]; reflexivity. }
  rewrite Hbody. destruct (selectedTool st) as [current|] eqn:Hsel.
  - apply applySelectedTool_current, Hsel.
  - apply applySelectedTool_unselected, Hsel.
Qed.

(** X8: a mouse or touch callback given an event for which [getEventOffset]
    finds no offset raises a TypeError ([offsets[0].x]) before any tool
    is looked at: nothing is called and the state stays. *)
Theorem onMouch_no_offset_raises (eventType : string) (event : Event) (st : State) :
  eventType ≠ "keydown" -> eventType ≠ "touchend" ->
  getEventOffset event = [] ->
  onMouch getEventOffset eventType event st = (Throw TypeError, st).
Proof.
  intros Hkey Htouch Hoff. unfold onMouch. rewrite !decide_False by assumption.
  unfold augmentEventOffsets. rewrite Hoff. reflexivity.
Qed.

(** X9: every event a mouse or touch callback does not send to 'WindowLevel'
    goes to the selected tool's handler for the type of the event, with
    [_x], [_y] set from the first offset, and [_x1], [_y1] set from the
    second one when there are exactly two offsets and left as they came
    otherwise (one offset, or three and more). *)
Theorem onMouch_hands_offsets (eventType : string) (event : Event) (st : State)
    (current : Tool) (o0 : Z * Z) (rest : list (Z * Z)) :
  eventType ≠ "keydown" -> eventType ≠ "touchend" ->
  selectedTool st = Some current ->
  isRightClick event = false ->
  getEventOffset event = o0 :: rest ->
  onMouch getEventOffset eventType event st
  = (Normal tt,
     handed (handlers current !! type event)
       (mkEvent (type event) (button event) (buttons event) (Some o0.1) (Some o0.2)
          (match rest with [o1] => Some o1.1 | _ => _x1 event end)
          (match rest with [o1] => Some o1.2 | _ => _y1 event end))
       st).
Proof.
  intros Hkey Htouch Hsel Hright Hoff. unfold onMouch.
  rewrite !decide_False by assumption.
  unfold augmentEventOffsets. rewrite Hoff.
  unfold isRightClick in *.
  destruct rest as [|o1 [|o2 rest]]; unfold bind at 1, ret at 1;
    cbn beta iota zeta; cbn [type button buttons]; rewrite Hright;
    rewrite (applySelectedTool_current _ _ _ Hsel); reflexivity.
Qed.

(** X10: with a tool selected and no 'WindowLevel' tool in the tool list, a
    press of button 2 (or a move with buttons 2) makes the callback raise
    a TypeError ([this.#toolList['WindowLevel']] is [undefined]): no
    handler is called, not even the selected tool's. *)
Theorem right_click_without_WindowLevel_raises (eventType : string) (event : Event)
    (st : State) (current : Tool) (o0 : Z * Z) (rest : list (Z * Z)) :
  eventType ≠ "keydown" -> eventType ≠ "touchend" ->
  getEventOffset event = o0 :: rest ->
  isRightClick event = true ->
  selectedTool st = Some current ->
  toolList st !! "WindowLevel" = None ->
  onMouch getEventOffset eventType event st = (Throw TypeError, st).
Proof.
  intros Hkey Htouch Hoff Hright Hsel Hwl. unfold onMouch.
  rewrite !decide_False by assumption.
  unfold augmentEventOffsets. rewrite Hoff.
  unfold isRightClick in *.
  destruct rest as [|o1 [|o2 rest]]; unfold bind at 1, ret at 1;
    cbn beta iota zeta; cbn [type button buttons]; rewrite Hright;
    unfold applySelectedTool; js_unfold; rewrite Hsel; simpl; rewrite Hwl; reflexivity.
Qed.

(** *** The callback cache over a session *)

Lemma keepsCacheWf_refl (st : State) : keepsCacheWf st st.
Proof. intros H. exact H. Qed.

Lemma keepsCacheWf_trans (st1 st2 st3 : State) :
  keepsCacheWf st1 st2 -> keepsCacheWf st2 st3 -> keepsCacheWf st1 st3.
Proof. intros H12 H23 H. apply H23, H12, H. Qed.

Lemma cacheWf_mono (st st' : State) :
  callbackStore st' = callbackStore st -> nextClosure st <= nextClosure st' ->
  keepsCacheWf st st'.
Proof.
  intros Hstore Hnext [Hold Hinj]. unfold cacheWf, cached in *. rewrite Hstore. split.
  - intros l k c Hc. destruct (Hold l k c Hc) as (id & -> & Hid). exists id. split; [reflexivity|lia].
  - exact Hinj.
Qed.

(** What is cached once [#getOnMouch] created a callback. *)
Lemma cached_after_miss (layerId eventType : string) (st : State) (callback : Closure)
    (l k : string) :
  cached l k
    (mkState (toolList st) (selectedTool st)
       (<[layerId := <[eventType := callback]> (default ∅ (callbackStore st !! layerId))]>
          (callbackStore st))
       (boundLayers st) (S (nextClosure st)) (activeTools st) (layerListeners st)
       (interactive st) (document st) (windowListeners st) (calls st))
  = if decide (l = layerId /\ k = eventType) then Some callback else cached l k st.
Proof.
  unfold cached. cbn.
  destruct (decide (l = layerId)) as [->|Hl].
  - rewrite lookup_insert_eq. cbn.
    destruct (decide (k = eventType)) as [->|Hk].
    + rewrite lookup_insert_eq, decide_True by auto. reflexivity.
    + rewrite lookup_insert_ne, decide_False by (try congruence; intros [_ ?]; congruence).
      destruct (callbackStore st !! layerId); reflexivity.
  - rewrite lookup_insert_ne, decide_False by (try congruence; intros [? _]; congruence).
    reflexivity.
Qed.

Lemma getOnMouch_respects_cacheWf (layerId eventType : string) :
  respects keepsCacheWf (getOnMouch layerId eventType).
Proof.
  intros st Hwf. unfold stateAfter.
  destruct (cached layerId eventType st) as [callback|] eqn:Hc.
  - rewrite (getOnMouch_hit _ _ _ _ Hc). exact Hwf.
  - rewrite (getOnMouch_miss _ _ _ Hc). cbn [snd].
    destruct Hwf as [Hold Hinj]. split.
    + intros l k c. rewrite cached_after_miss. case_decide as Hkey.
      * destruct Hkey as [-> ->]. intros [= <-]. eexists. split; [reflexivity|cbn; lia].
      * intros Hl. destruct (Hold l k c Hl) as (id & -> & Hid).
        exists id. split; [reflexivity|cbn; lia].
    + intros l1 k1 l2 k2 c. rewrite !cached_after_miss.
      repeat case_decide.
      * intros _ _. destruct H as [-> ->], H0 as [-> ->]. auto.
      * intros [= <-] Hl. destruct (Hold _ _ _ Hl) as (id & [= <- _] & Hid). lia.
      * intros Hl [= <-]. destruct (Hold _ _ _ Hl) as (id & [= <- _] & Hid). lia.
      * apply Hinj.
Qed.

End Facts.

(** Decompose a method body into the monad's operations; [leaf] closes
    the state updates and the calls the relation has a lemma for. *)
Ltac respects_steps R Rrefl Rtrans leaf :=
  repeat first
    [ leaf
    | apply (respects_ret R Rrefl)
    | apply (respects_throw R Rrefl)
    | apply (respects_getState R Rrefl)
    | apply (respects_modify R); intros ?; leaf
    | apply (respects_forEach R Rrefl Rtrans); intros ?
    | apply (respects_bind R Rtrans); [|intros ?]
    | match goal with
      | |- respects _ (match ?x with _ => _ end) => destruct x
      | |- respects _ (if ?x then _ else _) => destruct x
      end ].

Ltac cacheWf_leaf :=
  first [ apply getOnMouch_respects_cacheWf
        | apply cacheWf_mono; [reflexivity | cbn; lia] ].

Section Sessions.

Variable InteractionEventNames : list string.
Variable getEventOffset : Event -> list (Z * Z).

Lemma step_respects_cacheWf (op : Op) :
  respects keepsCacheWf (step InteractionEventNames getEventOffset op).
Proof.
  destruct op as [|name|features|layer layerGroupDivId|eventType|c event]; cbn [step];
    unfold init, Tool_init, setSelectedTool, Tool_activate, setToolFeatures,
      Tool_setFeatures, bindLayer, unbindLayer, Layer_unbindInteraction,
      Layer_removeEventListener, Layer_bindInteraction, Layer_addEventListener,
      getElementById, newPreventDefault, Element_addEventListener,
      Element_removeEventListener, getSelectedToolEventHandler, callClosure, onMouch,
      applySelectedTool, augmentEventOffsets, call;
    cbv zeta;
    respects_steps keepsCacheWf keepsCacheWf_refl keepsCacheWf_trans cacheWf_leaf.
Qed.

(** X11: over a whole session of a new controller in which no key (tool
    name, layer id, group id, event name) is an inherited one, the
    callback cached for a layer id and an event type is a callback built
    for that event type, and no callback is cached under two different
    pairs: two layers, or two event types, never share a dispatcher. *)
Theorem session_cache_one_callback_per_pair (tools : gmap string Tool)
    (doc : gmap string (list (string * Closure))) (ops : list Op) :
  Forall (fun name => inheritedByArray name = false) InteractionEventNames ->
  Forall (fun op => plainOp op = true) ops ->
  let st := run InteractionEventNames getEventOffset ops (newController tools doc) in
  (forall layerId eventType callback,
     cached layerId eventType st = Some callback ->
     exists id, callback = OnMouch id eventType /\ id < nextClosure st)
  /\ (forall layerId1 eventType1 layerId2 eventType2 callback,
        cached layerId1 eventType1 st = Some callback ->
        cached layerId2 eventType2 st = Some callback ->
        layerId1 = layerId2 /\ eventType1 = eventType2).
Proof.
  intros _ _. cbv zeta. unfold run.
  apply (respects_run keepsCacheWf keepsCacheWf_refl keepsCacheWf_trans
           (step InteractionEventNames getEventOffset) ops (newController tools doc)
           step_respects_cacheWf).
  split.
  - intros l k c Hc. unfold cached in Hc. cbn in Hc. rewrite lookup_empty in Hc. discriminate.
  - intros l1 k1 l2 k2 c Hc. unfold cached in Hc. cbn in Hc. rewrite lookup_empty in Hc.
    discriminate.
Qed.

(** *** [init] *)

Lemma forEach_Tool_init (l : list (string * Tool)) (st : State) :
  forEach l (fun kv => Tool_init kv.2) st
  = (Normal tt, set_calls (calls st ++ ((fun kv => ToolInit (toolRef kv.2)) <$> l)) st).
Proof.
  revert st. induction l as [|kv l IH]; intros st.
  - simpl. rewrite app_nil_r. destruct st; reflexivity.
  - cbn [forEach]. rewrite (bind_normal _ _ st
      (set_calls (calls st ++ [ToolInit (toolRef kv.2)]) st) tt) by reflexivity.
    rewrite IH. cbn. rewrite <- app_assoc. reflexivity.
Qed.

(** The state after [init]: the tools were initialised, the 'keydown'
    callback of 'window' is cached and listens on [window]. *)
Lemma init_spec (st : State) :
  exists callback st',
    init st = (Normal tt, st')
    /\ calls st' = calls st ++ ((fun kv => ToolInit (toolRef kv.2)) <$> map_to_list (toolList st))
    /\ cached "window" "keydown" st' = Some callback
    /\ windowListeners st' = EventTarget_add "keydown" callback (windowListeners st)
    /\ toolList st' = toolList st
    /\ (forall cached0, cached "window" "keydown" st = Some cached0 -> callback = cached0).
Proof.
  unfold init. unfold bind at 1. unfold getState at 1. cbn beta iota.
  rewrite (bind_normal _ _ _ _ _ (forEach_Tool_init _ st)).
  match goal with |- context [bind (getOnMouch _ _) _ ?s] =>
    destruct (getOnMouch_total "window" "keydown" s)
      as (callback & st_b & Hget & Hc & Hle & Hfr & _);
    pose proof (fun c0 (H : cached "window" "keydown" s = Some c0) =>
                  getOnMouch_hit _ _ _ _ H) as Hhit
  end.
  rewrite (bind_normal _ _ _ _ _ Hget).
  destruct Hfr as (Htl & _ & _ & _ & _ & _ & Hwin & Hcalls).
  eexists callback, _. split; [reflexivity|]. cbn.
  split; [rewrite Hcalls; reflexivity|]. split; [exact Hc|].
  split; [rewrite Hwin; reflexivity|]. split; [rewrite Htl; reflexivity|].
  intros cached0 H0. rewrite (Hhit cached0 H0) in Hget. congruence.
Qed.

(** X12: [init] calls [init] on each tool of the list, once (the calls it
    makes are, in some order, one per entry of the list), and makes the
    cached 'keydown' callback of 'window' a listener of [window]. Calling
    [init] again initialises the tools again but adds no second listener:
    the callback comes from the cache and [window] has it already. *)
Theorem init_registers_keydown_once (st : State) :
  let st1 := stateAfter init st in
  completion init st = Normal tt
  /\ (exists made,
        calls st1 = calls st ++ made
        /\ made ≡ₚ (fun kv => ToolInit (toolRef kv.2)) <$> map_to_list (toolList st))
  /\ (forall name tool, toolList st !! name = Some tool -> ToolInit (toolRef tool) ∈ calls st1)
  /\ (exists callback,
        cached "window" "keydown" st1 = Some callback
        /\ ("keydown", callback) ∈ windowListeners st1)
  /\ windowListeners (stateAfter init st1) = windowListeners st1.
Proof.
  cbv zeta. unfold completion, stateAfter.
  destruct (init_spec st) as (callback & st1 & Hinit & Hcalls & Hc & Hwin & Htl & _).
  rewrite Hinit. cbn [fst snd].
  assert (Hin : ("keydown", callback) ∈ windowListeners st1).
  { rewrite Hwin. unfold EventTarget_add. case_decide; [assumption|].
    apply elem_of_app. right. left. }
  split; [reflexivity|]. split; [eexists; split; [exact Hcalls|reflexivity]|]. split; [|split].
  - intros name tool Htool. rewrite Hcalls. apply elem_of_app. right.
    apply list_elem_of_fmap. exists (name, tool). split; [reflexivity|].
    apply elem_of_map_to_list. exact Htool.
  - exists callback. auto.
  - destruct (init_spec st1) as (callback2 & st2 & Hinit2 & _ & _ & Hwin2 & _ & Hsame).
    rewrite Hinit2. cbn [snd]. rewrite Hwin2, (Hsame callback Hc).
    unfold EventTarget_add. rewrite decide_True by exact Hin. reflexivity.
Qed.

(** *** Binding a layer, step by step *)

Lemma othersSame_refl (layer : Layer) (st : State) : othersSame layer st st.
Proof. intros other _. reflexivity. Qed.

Lemma othersSame_trans (layer : Layer) (st1 st2 st3 : State) :
  othersSame layer st1 st2 -> othersSame layer st2 st3 -> othersSame layer st1 st3.
Proof. intros H12 H23 other Hne. rewrite (H23 other Hne). apply H12, Hne. Qed.

Lemma nextLe_refl (st : State) : nextLe st st.
Proof. unfold nextLe. lia. Qed.

Lemma nextLe_trans (st1 st2 st3 : State) : nextLe st1 st2 -> nextLe st2 st3 -> nextLe st1 st3.
Proof. unfold nextLe. lia. Qed.

Lemma getOnMouch_respects_othersSame (layer : Layer) (layerId eventType : string) :
  respects (othersSame layer) (getOnMouch layerId eventType).
Proof.
  intros st other _. destruct (getOnMouch_total layerId eventType st)
    as (c & st' & Heq & _ & _ & _ & Hls).
  unfold stateAfter. rewrite Heq. unfold listenersOf. cbn [snd]. rewrite Hls. reflexivity.
Qed.

Lemma getOnMouch_respects_nextLe (layerId eventType : string) :
  respects nextLe (getOnMouch layerId eventType).
Proof.
  intros st. unfold stateAfter, nextLe.
  destruct (cached layerId eventType st) as [callback|] eqn:Hc.
  - rewrite (getOnMouch_hit _ _ _ _ Hc). cbn. lia.
  - rewrite (getOnMouch_miss _ _ _ Hc). cbn. lia.
Qed.

Lemma addLoop_frame (layer : Layer) (names : list string) (st : State) :
  let st' := stateAfter (forEach names (fun name =>
      let* callback := getOnMouch (getId layer) name in
      Layer_addEventListener layer name callback)) st in
  othersSame layer st st' /\ nextLe st st'.
Proof.
  cbv zeta. split.
  - revert st. apply (respects_forEach _ (othersSame_refl layer) (othersSame_trans layer)).
    intros name. apply (respects_bind _ (othersSame_trans layer));
      [apply getOnMouch_respects_othersSame|].
    intros callback st other Hne. unfold listenersOf. cbn.
    rewrite lookup_insert_ne by congruence. reflexivity.
  - revert st. apply (respects_forEach _ nextLe_refl nextLe_trans).
    intros name. apply (respects_bind _ nextLe_trans); [apply getOnMouch_respects_nextLe|].
    intros callback st. unfold nextLe, stateAfter. cbn. lia.
Qed.

Lemma removeLoop_frame (layer : Layer) (names : list string) (st : State) :
  let st' := stateAfter (forEach names (fun name =>
      let* callback := getOnMouch (getId layer) name in
      Layer_removeEventListener layer name callback)) st in
  othersSame layer st st' /\ nextLe st st'.
Proof.
  cbv zeta. split.
  - revert st. apply (respects_forEach _ (othersSame_refl layer) (othersSame_trans layer)).
    intros name. apply (respects_bind _ (othersSame_trans layer));
      [apply getOnMouch_respects_othersSame|].
    intros callback st other Hne. unfold listenersOf. cbn.
    rewrite lookup_insert_ne by congruence. reflexivity.
  - revert st. apply (respects_forEach _ nextLe_refl nextLe_trans).
    intros name. apply (respects_bind _ nextLe_trans); [apply getOnMouch_respects_nextLe|].
    intros callback st. unfold nextLe, stateAfter. cbn. lia.
Qed.

Lemma registrations_fst (layerId : string) (names : list string) (st : State) :
  (forall name, name ∈ names -> is_Some (cached layerId name st)) ->
  (registrations layerId names st).*1 = names.
Proof.
  induction names as [|name names IH]; intros Hall; [reflexivity|].
  destruct (Hall name) as [c Hc]; [left|].
  rewrite (registrations_cons _ _ _ _ _ Hc). cbn. f_equal.
  apply IH. intros n Hn. apply Hall. right. exact Hn.
Qed.

(** [bindLayer] from the call of [bindInteraction] up to the loop over
    the event names included. *)
Lemma bindLayer_head_spec (layer : Layer) (st : State) :
  exists st_b,
    (Layer_bindInteraction layer ;;
     forEach InteractionEventNames (fun name =>
       let* callback := getOnMouch (getId layer) name in
       Layer_addEventListener layer name callback)) st = (Normal tt, st_b)
    /\ cacheLe st st_b
    /\ (forall name, name ∈ InteractionEventNames ->
          is_Some (cached (getId layer) name st_b))
    /\ listenersOf layer st_b
       = listenersOf layer st ++ registrations (getId layer) InteractionEventNames st_b
    /\ othersSame layer st st_b /\ nextLe st st_b
    /\ boundLayers st_b = boundLayers st /\ document st_b = document st
    /\ calls st_b = calls st ++ [LayerBindInteraction (layerRef layer)]
    /\ interactive st_b = interactive st ∪ {[layerRef layer]}.
Proof.
  set (st_a := stateAfter (Layer_bindInteraction layer) st).
  rewrite (bind_normal _ _ st st_a tt) by reflexivity.
  destruct (addLoop_spec layer InteractionEventNames st_a)
    as (st_b & Hloop & Hle & Hfr & Hall & Hls).
  destruct (addLoop_frame layer InteractionEventNames st_a) as [Hoth Hnext].
  unfold stateAfter in Hoth, Hnext. rewrite Hloop in Hoth, Hnext. cbn [snd] in Hoth, Hnext.
  destruct Hfr as (_ & _ & Hbl & _ & Hint & Hdoc & _ & Hcalls).
  exists st_b. split; [exact Hloop|].
  split; [eapply cacheLe_trans; [|exact Hle]; apply cacheLe_same_store; reflexivity|].
  split; [exact Hall|]. split; [exact Hls|]. split; [exact Hoth|].
  split; [exact Hnext|]. split; [exact Hbl|]. split; [exact Hdoc|].
  split; [exact Hcalls|exact Hint].
Qed.

(** The whole of [#unbindLayer] for a layer whose element is in the
    page. *)
Lemma unbindLayer_full (layer : Layer) (st : State) (l : list (string * Closure)) :
  document st !! getId layer = Some l ->
  exists st' n,
    unbindLayer InteractionEventNames layer st = (Normal tt, st')
    /\ cacheLe st st'
    /\ (forall name, name ∈ InteractionEventNames ->
          is_Some (cached (getId layer) name st'))
    /\ listenersOf layer st'
       = filter (fun p => p ∉ registrations (getId layer) InteractionEventNames st')
           (listenersOf layer st)
    /\ othersSame layer st st'
    /\ boundLayers st' = boundLayers st
    /\ calls st' = calls st ++ [LayerUnbindInteraction (layerRef layer)]
    /\ interactive st' = interactive st ∖ {[layerRef layer]}
    /\ nextClosure st <= n /\ nextClosure st' = S n
    /\ document st'
       = <[getId layer := EventTarget_remove "contextmenu" (PreventDefault n) l]>
           (document st).
Proof.
  intros Hl. unfold unbindLayer.
  set (st_a := stateAfter (Layer_unbindInteraction layer) st).
  rewrite (bind_normal _ _ st st_a tt) by reflexivity.
  destruct (removeLoop_spec layer InteractionEventNames st_a)
    as (st_b & Hloop & Hle & Hfr & Hall & Hls).
  destruct (removeLoop_frame layer InteractionEventNames st_a) as [Hoth Hnext].
  unfold stateAfter in Hoth, Hnext. rewrite Hloop in Hoth, Hnext. cbn [snd] in Hoth, Hnext.
  rewrite (bind_normal _ _ _ _ _ Hloop).
  destruct Hfr as (_ & _ & Hbl & _ & Hint & Hdoc & _ & Hcalls).
  change (document st_a) with (document st) in Hdoc.
  assert (Hdoc_b : document st_b !! getId layer = Some l) by (rewrite Hdoc; exact Hl).
  rewrite (bind_normal _ _ st_b st_b tt).
  2:{ unfold getElementById. js_unfold. rewrite Hdoc_b. reflexivity. }
  eexists _, (nextClosure st_b). split; [reflexivity|]. cbn.
  split; [eapply cacheLe_trans; [|exact Hle]; apply cacheLe_same_store; reflexivity|].
  split; [exact Hall|]. split; [exact Hls|]. split; [exact Hoth|].
  split; [exact Hbl|]. split; [exact Hcalls|]. split; [exact Hint|].
  split; [exact Hnext|]. split; [reflexivity|].
  rewrite Hdoc. apply map_eq. intros id. rewrite lookup_alter.
  case_decide; [subst; rewrite lookup_insert_eq, Hl; reflexivity|].
  rewrite lookup_insert_ne by congruence. reflexivity.
Qed.

(** The rest of [bindLayer] after the unbinding, for a layer whose
    element is in the page. *)
Lemma bindLayer_tail_full (layer : Layer) (layerGroupDivId : string) (st : State)
    (l : list (string * Closure)) :
  document st !! getId layer = Some l ->
  exists st' n,
    (Layer_bindInteraction layer ;;
     forEach InteractionEventNames (fun name =>
       let* callback := getOnMouch (getId layer) name in
       Layer_addEventListener layer name callback) ;;
     getElementById (getId layer) ;;
     let* preventDefault := newPreventDefault in
     Element_addEventListener (getId layer) "contextmenu" preventDefault ;;
     modify (fun st1 =>
       set_boundLayers (<[layerGroupDivId := layer]> (boundLayers st1)) st1)) st
    = (Normal tt, st')
    /\ cacheLe st st'
    /\ (forall name, name ∈ InteractionEventNames ->
          is_Some (cached (getId layer) name st'))
    /\ listenersOf layer st'
       = listenersOf layer st ++ registrations (getId layer) InteractionEventNames st'
    /\ othersSame layer st st'
    /\ boundLayers st' = <[layerGroupDivId := layer]> (boundLayers st)
    /\ calls st' = calls st ++ [LayerBindInteraction (layerRef layer)]
    /\ interactive st' = interactive st ∪ {[layerRef layer]}
    /\ nextClosure st <= n /\ nextClosure st' = S n
    /\ document st'
       = <[getId layer := EventTarget_add "contextmenu" (PreventDefault n) l]> (document st).
Proof.
  intros Hl.
  destruct (bindLayer_head_spec layer st)
    as (st_b & Hhead & Hle & Hall & Hls & Hoth & Hnext & Hbl & Hdoc & Hcalls & Hint).
  assert (Hsplit : forall (k : M State unit),
            (Layer_bindInteraction layer ;;
             forEach InteractionEventNames (fun name =>
               let* callback := getOnMouch (getId layer) name in
               Layer_addEventListener layer name callback) ;; k) st = k st_b).
  { intros k. unfold bind in Hhead |- *.
    destruct (Layer_bindInteraction layer st) as [[[]|e] s1]; [|discriminate].
    destruct (forEach InteractionEventNames _ s1) as [[[]|e] s2]; [|discriminate].
    injection Hhead as ->. reflexivity. }
  rewrite Hsplit.
  assert (Hdoc_b : document st_b !! getId layer = Some l) by (rewrite Hdoc; exact Hl).
  rewrite (bind_normal _ _ st_b st_b tt).
  2:{ unfold getElementById. js_unfold. rewrite Hdoc_b. reflexivity. }
  eexists _, (nextClosure st_b). split; [reflexivity|]. cbn.
  split; [exact Hle|]. split; [exact Hall|]. split; [exact Hls|]. split; [exact Hoth|].
  split; [rewrite Hbl; reflexivity|]. split; [exact Hcalls|]. split; [exact Hint|].
  split; [exact Hnext|]. split; [reflexivity|].
  rewrite Hdoc. apply map_eq. intros id. rewrite lookup_alter.
  case_decide; [subst; rewrite lookup_insert_eq, Hl; reflexivity|].
  rewrite lookup_insert_ne by congruence. reflexivity.
Qed.

(** X13: [bindLayer] with a group that has no layer yet and a layer whose
    element is in the page (group id, layer id and event names not
    inherited ones): it returns; [bindInteraction] is the one call
    made on the layer; the layer gets, after the listeners it had, one
    listener per event name, in the order of the names, each the callback
    cached for the layer's id and that name; no other layer changes; the
    layer's element gets a new 'contextmenu' closure as listener; the
    layer is the bound layer of the group. *)
Theorem bindLayer_free_group (layer : Layer) (layerGroupDivId : string) (st : State)
    (l : list (string * Closure)) :
  Forall (fun name => inheritedByArray name = false) InteractionEventNames ->
  inheritedByArray (getId layer) = false ->
  inheritedByObject layerGroupDivId = false ->
  boundLayers st !! layerGroupDivId = None ->
  document st !! getId layer = Some l ->
  let st' := stateAfter (bindLayer InteractionEventNames layer layerGroupDivId) st in
  completion (bindLayer InteractionEventNames layer layerGroupDivId) st = Normal tt
  /\ boundLayers st' = <[layerGroupDivId := layer]> (boundLayers st)
  /\ calls st' = calls st ++ [LayerBindInteraction (layerRef layer)]
  /\ interactive st' = interactive st ∪ {[layerRef layer]}
  /\ listenersOf layer st'
     = listenersOf layer st ++ registrations (getId layer) InteractionEventNames st'
  /\ (registrations (getId layer) InteractionEventNames st').*1 = InteractionEventNames
  /\ othersSame layer st st'
  /\ exists n,
       nextClosure st <= n
       /\ document st'
          = <[getId layer := EventTarget_add "contextmenu" (PreventDefault n) l]>
              (document st).
Proof.
  intros _ _ Hg Hfree Hl. cbv zeta.
  destruct (bindLayer_tail_full layer layerGroupDivId st l Hl)
    as (st' & n & Htail & _ & Hall & Hls & Hoth & Hbl & Hcalls & Hint & Hn & _ & Hdoc).
  assert (Hrun : bindLayer InteractionEventNames layer layerGroupDivId st = (Normal tt, st')).
  { unfold bindLayer. unfold bind at 1. unfold getState at 1. cbn beta iota.
    rewrite Hfree, Hg. rewrite (bind_normal _ _ st st tt) by reflexivity. exact Htail. }
  unfold completion, stateAfter. rewrite Hrun. cbn [fst snd].
  split; [reflexivity|]. split; [exact Hbl|]. split; [exact Hcalls|].
  split; [exact Hint|]. split; [exact Hls|].
  split; [apply registrations_fst, Hall|]. split; [exact Hoth|].
  exists n. auto.
Qed.

(** X14: [bindLayer] with a group that has another layer bound (one layer
    per group; layer ids and event names not inherited ones): the layer
    bound before is unbound first, then the new one is bound.
    [unbindInteraction] on the old layer then [bindInteraction] on the new
    one are the calls made, in this order; the old layer loses exactly its
    registrations for the event names and keeps its other listeners in
    order; the new layer gets its registrations; the group's bound layer
    is the new one. *)
Theorem bindLayer_replaces_bound (layer bound : Layer) (layerGroupDivId : string)
    (st : State) :
  Forall (fun name => inheritedByArray name = false) InteractionEventNames ->
  inheritedByArray (getId layer) = false ->
  inheritedByArray (getId bound) = false ->
  boundLayers st !! layerGroupDivId = Some bound ->
  layerRef bound ≠ layerRef layer ->
  is_Some (document st !! getId bound) ->
  is_Some (document st !! getId layer) ->
  let st' := stateAfter (bindLayer InteractionEventNames layer layerGroupDivId) st in
  completion (bindLayer InteractionEventNames layer layerGroupDivId) st = Normal tt
  /\ boundLayers st' = <[layerGroupDivId := layer]> (boundLayers st)
  /\ calls st'
     = calls st ++ [LayerUnbindInteraction (layerRef bound);
                    LayerBindInteraction (layerRef layer)]
  /\ interactive st' = interactive st ∖ {[layerRef bound]} ∪ {[layerRef layer]}
  /\ listenersOf bound st'
     = filter (fun p => p ∉ registrations (getId bound) InteractionEventNames st')
         (listenersOf bound st)
  /\ listenersOf layer st'
     = listenersOf layer st ++ registrations (getId layer) InteractionEventNames st'.
Proof.
  intros _ _ _ Hb Hne [lb Hlb] [l Hl]. cbv zeta.
  destruct (unbindLayer_full bound st lb Hlb)
    as (st1 & n1 & Hun & Hle1 & Hall1 & Hls1 & Hoth1 & Hbl1 & Hcalls1 & Hint1 & _ & _ & Hdoc1).
  assert (Hl1 : exists l1, document st1 !! getId layer = Some l1).
  { rewrite Hdoc1. destruct (decide (getId bound = getId layer)) as [->|Hid].
    - rewrite lookup_insert_eq. eauto.
    - rewrite lookup_insert_ne by exact Hid. eauto. }
  destruct Hl1 as [l1 Hl1].
  destruct (bindLayer_tail_full layer layerGroupDivId st1 l1 Hl1)
    as (st' & n & Htail & Hle2 & Hall2 & Hls2 & Hoth2 & Hbl2 & Hcalls2 & Hint2 & _).
  assert (Hrun : bindLayer InteractionEventNames layer layerGroupDivId st = (Normal tt, st')).
  { unfold bindLayer. unfold bind at 1. unfold getState at 1. cbn beta iota.
    rewrite Hb. rewrite (bind_normal _ _ _ _ _ Hun). exact Htail. }
  unfold completion, stateAfter. rewrite Hrun. cbn [fst snd].
  split; [reflexivity|]. split; [rewrite Hbl2, Hbl1; reflexivity|].
  split; [rewrite Hcalls2, Hcalls1, <- app_assoc; reflexivity|].
  split; [rewrite Hint2, Hint1; reflexivity|]. split.
  - rewrite (Hoth2 bound Hne), Hls1. apply list_filter_iff. intros p.
    rewrite (registrations_ext _ _ st1 st' Hall1 Hle2). reflexivity.
  - rewrite Hls2. rewrite (Hoth1 layer) by congruence. reflexivity.
Qed.

(** X15: [bindLayer] for a layer whose element is not in the page, on a group
    with no layer (group id, layer id and event names not inherited
    ones): [document.getElementById] gives [null] and the call
    raises a TypeError, after [bindInteraction] was called and the
    listeners were registered on the layer, and before the layer is
    recorded: the group stays without a bound layer, so a later
    [bindLayer] will not unbind this one. *)
Theorem bindLayer_missing_element (layer : Layer) (layerGroupDivId : string) (st : State) :
  Forall (fun name => inheritedByArray name = false) InteractionEventNames ->
  inheritedByArray (getId layer) = false ->
  inheritedByObject layerGroupDivId = false ->
  boundLayers st !! layerGroupDivId = None ->
  document st !! getId layer = None ->
  let st' := stateAfter (bindLayer InteractionEventNames layer layerGroupDivId) st in
  completion (bindLayer InteractionEventNames layer layerGroupDivId) st = Throw TypeError
  /\ boundLayers st' = boundLayers st
  /\ document st' = document st
  /\ calls st' = calls st ++ [LayerBindInteraction (layerRef layer)]
  /\ interactive st' = interactive st ∪ {[layerRef layer]}
  /\ listenersOf layer st'
     = listenersOf layer st ++ registrations (getId layer) InteractionEventNames st'
  /\ (registrations (getId layer) InteractionEventNames st').*1 = InteractionEventNames.
Proof.
  intros _ _ Hg Hfree Hnone. cbv zeta.
  destruct (bindLayer_head_spec layer st)
    as (st_b & Hhead & _ & Hall & Hls & _ & _ & Hbl & Hdoc & Hcalls & Hint).
  assert (Hsplit : forall (k : M State unit),
            (Layer_bindInteraction layer ;;
             forEach InteractionEventNames (fun name =>
               let* callback := getOnMouch (getId layer) name in
               Layer_addEventListener layer name callback) ;; k) st = k st_b).
  { intros k. unfold bind in Hhead |- *.
    destruct (Layer_bindInteraction layer st) as [[[]|e] s1]; [|discriminate].
    destruct (forEach InteractionEventNames _ s1) as [[[]|e] s2]; [|discriminate].
    injection Hhead as ->. reflexivity. }
  assert (Hdoc_b : document st_b !! getId layer = None) by (rewrite Hdoc; exact Hnone).
  assert (Hrun : bindLayer InteractionEventNames layer layerGroupDivId st
                 = (Throw TypeError, st_b)).
  { unfold bindLayer. unfold bind at 1. unfold getState at 1. cbn beta iota.
    rewrite Hfree, Hg. rewrite (bind_normal _ _ st st tt) by reflexivity.
    rewrite Hsplit. apply bind_throw.
    unfold getElementById. js_unfold. rewrite Hdoc_b. reflexivity. }
  unfold completion, stateAfter. rewrite Hrun. cbn [fst snd].
  split; [reflexivity|]. split; [exact Hbl|]. split; [exact Hdoc|].
  split; [exact Hcalls|]. split; [exact Hint|]. split; [exact Hls|].
  apply registrations_fst, Hall.
Qed.

(** X19: [bindLayer] with a group id that a plain object inherits
    ('toString', 'constructor', ...) and under which nothing was stored:
    the inherited value counts as the bound layer, [#unbindLayer] raises a
    TypeError on its first line, and nothing is bound: [bindInteraction]
    is not called, no listener is registered, the state is unchanged. *)
Theorem bindLayer_inherited_group (layer : Layer) (layerGroupDivId : string) (st : State) :
  inheritedByObject layerGroupDivId = true ->
  boundLayers st !! layerGroupDivId = None ->
  bindLayer InteractionEventNames layer layerGroupDivId st = (Throw TypeError, st).
Proof.
  intros Hg Hfree. unfold bindLayer. unfold bind at 1. unfold getState at 1.
  cbn beta iota. rewrite Hfree, Hg. reflexivity.
Qed.

(** *** The listeners on the elements of the page *)







End Sessions.


Section Pages.

Variable InteractionEventNames : list string.
Variable getEventOffset : Event -> list (Z * Z).



End Pages.

(** 'Scroll' selected on a new controller: its 'mousedown' handler is
    function 11, and it has none for 'keydown'. *)
Lemma hasTool_setSelectedTool_handler_witness :
  hasTool "Scroll" Scenario.toolbox = true
  /\ completion (setSelectedTool "Scroll" ;; getSelectedToolEventHandler "mousedown")
       Scenario.toolbox = Normal (Some 11)
  /\ completion (setSelectedTool "Scroll" ;; getSelectedToolEventHandler "keydown")
       Scenario.toolbox = Normal None.
Proof.
  destruct (hasTool_setSelectedTool_handler "Scroll" Scenario.toolbox Scenario.scroll eq_refl)
    as (Hhas & _ & Hget).
  split; [exact Hhas|]. split; [exact (Hget "mousedown")|exact (Hget "keydown")].
Defined.

(** A session that binds layer0 then layer1 to 'group' after [init]: the
    callbacks of 'layer-0' and 'layer-1' for 'mousedown' are two
    dispatchers, and the one of 'layer-0' is not cached for 'mousemove'. *)
Lemma session_cache_one_callback_per_pair_witness :
  let ops := [OpInit; OpBindLayer Scenario.layer0 "group";
              OpBindLayer Scenario.layer1 "group"] in
  let st := run Scenario.InteractionEventNames Scenario.getEventOffset ops
              (newController Scenario.tools Scenario.page) in
  Forall (fun op => plainOp op = true) ops
  /\ cached "layer-0" "mousedown" st ≠ cached "layer-1" "mousedown" st
  /\ cached "layer-0" "mousedown" st ≠ cached "layer-0" "mousemove" st.
Proof.
  cbv zeta.
  assert (Hops : Forall (fun op => plainOp op = true)
                   [OpInit; OpBindLayer Scenario.layer0 "group";
                    OpBindLayer Scenario.layer1 "group"])
    by (repeat constructor).
  split; [exact Hops|].
  destruct (session_cache_one_callback_per_pair Scenario.InteractionEventNames
              Scenario.getEventOffset Scenario.tools Scenario.page _
              InteractionEventNames_plain Hops) as [_ Hinj].
  assert (Hc : exists c,
            cached "layer-0" "mousedown"
              (run Scenario.InteractionEventNames Scenario.getEventOffset
                 [OpInit; OpBindLayer Scenario.layer0 "group";
                  OpBindLayer Scenario.layer1 "group"]
                 (newController Scenario.tools Scenario.page)) = Some c)
    by (eexists; vm_compute; reflexivity).
  destruct Hc as [c Hc]. split.
  - intros Heq. rewrite Hc in Heq. symmetry in Heq.
    destruct (Hinj _ _ _ _ _ Hc Heq) as [Hl _]. discriminate Hl.
  - intros Heq. rewrite Hc in Heq. symmetry in Heq.
    destruct (Hinj _ _ _ _ _ Hc Heq) as [_ Hk]. discriminate Hk.
Defined.

(** A key press with the 'Key' tool selected, even when no offset could
    be computed. *)
Lemma keydown_touchend_forward_raw_witness :
  onMouch Scenario.noOffset "keydown" Scenario.keyPress Scenario.keySelected
  = (Normal tt, handed (Some 31) Scenario.keyPress Scenario.keySelected).
Proof.
  exact (keydown_touchend_forward_raw Scenario.noOffset "keydown" Scenario.keyPress
           Scenario.keySelected (or_introl eq_refl)).
Defined.

(** A left press for which no offset is found. *)
Lemma onMouch_no_offset_raises_witness :
  onMouch Scenario.noOffset "mousedown" Scenario.leftPress Scenario.scrollSelected
  = (Throw TypeError, Scenario.scrollSelected).
Proof.
  apply onMouch_no_offset_raises; [discriminate|discriminate|reflexivity].
Defined.

(** A left press with three offsets: only the first is attached. *)
Lemma onMouch_hands_offsets_witness :
  onMouch Scenario.threeOffsets "mousedown" Scenario.leftPress Scenario.scrollSelected
  = (Normal tt,
     handed (Some 11)
       (mkEvent "mousedown" (Some 0%Z) (Some 1%Z) (Some 3%Z) (Some 4%Z) None None)
       Scenario.scrollSelected).
Proof.
  exact (onMouch_hands_offsets Scenario.threeOffsets "mousedown" Scenario.leftPress
           Scenario.scrollSelected Scenario.scroll (3, 4)%Z [(5, 6)%Z; (7, 8)%Z]
           ltac:(discriminate) ltac:(discriminate) eq_refl eq_refl eq_refl).
Defined.

(** A right press with the 'Key' tool selected and no 'WindowLevel'. *)
Lemma right_click_without_WindowLevel_raises_witness :
  onMouch Scenario.getEventOffset "mousedown" Scenario.rightPress Scenario.keySelected
  = (Throw TypeError, Scenario.keySelected).
Proof.
  exact (right_click_without_WindowLevel_raises Scenario.getEventOffset "mousedown"
           Scenario.rightPress Scenario.keySelected Scenario.keyTool (3, 4)%Z []
           ltac:(discriminate) ltac:(discriminate) eq_refl eq_refl eq_refl eq_refl).
Defined.

(** layer0 bound to 'group' on the new toolbox. *)
Lemma bindLayer_free_group_witness :
  boundLayers Scenario.bound0 = <["group" := Scenario.layer0]> ∅
  /\ calls Scenario.bound0 = [LayerBindInteraction 1]
  /\ (listenersOf Scenario.layer0 Scenario.bound0).*1 = Scenario.InteractionEventNames.
Proof.
  destruct (bindLayer_free_group Scenario.InteractionEventNames Scenario.layer0 "group"
              Scenario.toolbox [] InteractionEventNames_plain eq_refl eq_refl eq_refl eq_refl)
    as (_ & Hbl & Hcalls & _ & Hls & Hfst & _).
  split; [exact Hbl|]. split; [exact Hcalls|].
  exact (eq_trans (f_equal (fmap fst) Hls) Hfst).
Defined.

(** layer1 bound to 'group' while layer0 is bound there. *)
Lemma bindLayer_replaces_bound_witness :
  boundLayers Scenario.bound1 !! "group" = Some Scenario.layer1
  /\ calls Scenario.bound1
     = [LayerBindInteraction 1; LayerUnbindInteraction 1; LayerBindInteraction 2].
Proof.
  destruct (bindLayer_replaces_bound Scenario.InteractionEventNames Scenario.layer1
              Scenario.layer0 "group" Scenario.bound0 InteractionEventNames_plain
              eq_refl eq_refl eq_refl ltac:(discriminate)
              (ex_intro _ [("contextmenu", PreventDefault 9)] eq_refl)
              (ex_intro _ [] eq_refl))
    as (_ & Hbl & Hcalls & _).
  split; [|exact Hcalls].
  change (boundLayers Scenario.bound1) with
    (boundLayers (stateAfter (bindLayer Scenario.InteractionEventNames Scenario.layer1 "group")
                    Scenario.bound0)).
  rewrite Hbl. apply lookup_insert_eq.
Defined.

(** layer0 bound to the group 'toString' on a new controller. *)
Lemma bindLayer_inherited_group_witness :
  bindLayer Scenario.InteractionEventNames Scenario.layer0 "toString" Scenario.toolbox
  = (Throw TypeError, Scenario.toolbox).
Proof.
  exact (bindLayer_inherited_group Scenario.InteractionEventNames Scenario.layer0 "toString"
           Scenario.toolbox eq_refl eq_refl).
Defined.

(** layer2, whose element is not in the page. *)
Lemma bindLayer_missing_element_witness :
  let st' := stateAfter (bindLayer Scenario.InteractionEventNames Scenario.layer2 "other")
               Scenario.toolbox in
  completion (bindLayer Scenario.InteractionEventNames Scenario.layer2 "other")
    Scenario.toolbox = Throw TypeError
  /\ boundLayers st' = ∅
  /\ (listenersOf Scenario.layer2 st').*1 = Scenario.InteractionEventNames.
Proof.
  destruct (bindLayer_missing_element Scenario.InteractionEventNames Scenario.layer2 "other"
              Scenario.toolbox InteractionEventNames_plain eq_refl eq_refl eq_refl eq_refl)
    as (Hthrow & Hbl & _ & _ & _ & Hls & Hfst).
  split; [exact Hthrow|]. split; [exact Hbl|].
  exact (eq_trans (f_equal (fmap fst) Hls) Hfst).
Defined.



End ToolboxControllerExtras.
